(** * QrCodeRecognitionAndNamingTool: a shallow embedding of the renaming tool

    The program (QrCodeRecognitionAndNamingTool.py) is sequential glue over
    external libraries (PyMuPDF, Pillow, NumPy, OpenCV, pyzbar) and the
    operating system.  The five functions of the script are embedded below in
    a small monad that has what the Python code relies on: exceptions,
    [return] from inside [try], [try]/[except]/[finally], local variables
    that may be unbound, and a trace of the calls and of the printed lines.

    The libraries are collaborators: they are the fields of the class
    [Collaborators], and every general theorem holds for all of them.  A
    simulated host ([Module Sim]) instantiates the class for concrete runs.

    What the embedding takes for granted: a library call either returns or
    raises a subclass of [Exception] (no [KeyboardInterrupt]); [print] and
    [Image.close] do not raise; opening and rendering a document read the
    file system without changing it; [os.rename] is atomic. *)

From Stdlib Require Import String Ascii List ZArith QArith Bool Lia.
Import ListNotations.

Local Open Scope string_scope.
Local Open Scope list_scope.
Local Open Scope Z_scope.

(** ** Python values used by the script *)

(** The exceptions that can reach the script.  All of them derive from
    Python's [Exception], so [except Exception] catches each of them, and
    [except FileExistsError] catches the first one only. *)
Inductive exn : Type :=
| FileExistsError
| FileNotFoundError
| IsADirectoryError
| NotADirectoryError
| OSError (what : string)
| UnboundLocalError (name : string)
| IndexError
| ValueError
| UnicodeDecodeError
| LibraryError (what : string).

Definition is_FileExistsError (e : exn) : bool :=
  match e with FileExistsError => true | _ => false end.

(** The result of a call into a library: a value or a raised exception. *)
Inductive res (A : Type) : Type :=
| Ok (a : A)
| Exc (e : exn).
Arguments Ok {A} a.
Arguments Exc {A} e.

(** [str.lower()] restricted to what [endswith(".pdf")] can see: no code
    point other than [A]-[Z] lowercases to an ASCII letter or a dot that
    matters here, and in UTF-8 an ASCII byte is never part of a longer
    sequence, so the bytewise ASCII lowering decides the same suffix test. *)
Definition ascii_lower (c : ascii) : ascii :=
  let n := nat_of_ascii c in
  if (Nat.leb 65 n && Nat.leb n 90)%bool then ascii_of_nat (n + 32) else c.

Fixpoint lower (s : string) : string :=
  match s with
  | EmptyString => EmptyString
  | String c s' => String (ascii_lower c) (lower s')
  end.

(** [s.endswith(suffix)] *)
Definition endswith (s suffix : string) : bool :=
  let n := String.length s in
  let k := String.length suffix in
  (Nat.leb k n && String.eqb (substring (n - k) k s) suffix)%bool.

(** The name test of line 111: [filename.lower().endswith(".pdf")]. *)
Definition is_pdf_name (filename : string) : bool :=
  endswith (lower filename) ".pdf".

(** Truth value of a [str], of a list and of a [str]-or-[None]. *)
Definition truthy_str (s : string) : bool := negb (String.eqb s "").

Definition truthy_list {A : Type} (l : list A) : bool :=
  match l with [] => false | _ :: _ => true end.

Definition truthy_opt (o : option string) : bool :=
  match o with None => false | Some s => truthy_str s end.

(** [l[0]] *)
Definition getitem0 {A : Type} (l : list A) : res A :=
  match l with [] => Exc IndexError | a :: _ => Ok a end.

(** The builtin [min] and [max] over a sequence: the first extremal element
    is kept, an empty sequence raises [ValueError]. *)
Fixpoint min_from (m : Q) (l : list Q) : Q :=
  match l with
  | [] => m
  | x :: l' => min_from (if Qlt_le_dec x m then x else m) l'
  end.

Fixpoint max_from (m : Q) (l : list Q) : Q :=
  match l with
  | [] => m
  | x :: l' => max_from (if Qlt_le_dec m x then x else m) l'
  end.

Definition py_min (l : list Q) : res Q :=
  match l with [] => Exc ValueError | x :: l' => Ok (min_from x l') end.

Definition py_max (l : list Q) : res Q :=
  match l with [] => Exc ValueError | x :: l' => Ok (max_from x l') end.

(** [int(x)] on a finite float: truncation toward zero. *)
Definition py_int (q : Q) : Z := Z.quot (Qnum q) (Zpos (Qden q)).

(** A crop box [(left, upper, right, lower)]. *)
Definition box : Type := (Z * Z * Z * Z)%type.

(** ** The collaborators *)

(** The operating system and the libraries, as the script calls them.  A
    corner coordinate is a finite float, kept here as the rational it
    denotes.  [os_rename] either fails, leaving the file system as it was, or
    gives the new file system.  [os_path_exists] is not called by the script;
    it is there to say when a target name is taken. *)
Class Collaborators : Type := {
  filesystem : Type;
  document : Type;
  page : Type;
  pixmap : Type;
  image : Type;
  ndarray : Type;
  bytes : Type;
  (* os, os.path *)
  os_listdir : filesystem -> string -> res (list string);
  os_path_join : string -> string -> string;
  os_path_abspath : string -> string;
  os_path_exists : filesystem -> string -> bool;
  os_rename : filesystem -> string -> string -> res filesystem;
  (* fitz *)
  fitz_open : filesystem -> string -> res document;
  Document_getitem : document -> Z -> res page;
  Page_get_pixmap : page -> Z -> res pixmap;
  (* PIL.Image *)
  Image_frombytes : string -> pixmap -> res image;
  Image_fromarray : ndarray -> res image;
  Image_mode : image -> string;
  Image_convert : image -> string -> res image;
  Image_crop : image -> box -> res image;
  (* numpy, cv2 *)
  np_array : image -> res ndarray;
  cv2_cvtColor_RGB2GRAY : ndarray -> res ndarray;
  cv2_threshold : ndarray -> Z -> Z -> Z -> res ndarray;
  QRCodeDetector_detect : ndarray -> res (option (list (list (Q * Q))));
  QRCodeDetector_detectAndDecode : ndarray -> res string;
  (* pyzbar, restricted to ZBarSymbol.QRCODE; one [bytes] per symbol *)
  pyzbar_decode_QRCODE : image -> res (list bytes);
  bytes_decode_utf8 : bytes -> res string
}.

Definition cv2_THRESH_BINARY : Z := 0.
Definition cv2_THRESH_OTSU : Z := 8.

(** ** Printed lines, events, outcomes *)

(** One constructor per [print] of the script. *)
Inductive message : Type :=
| Msg_detected (x_min y_min x_max y_max : Z)
| Msg_no_qr_detected
| Msg_detection_failed (e : exn)
| Msg_preprocessing_failed (e : exn)
| Msg_error_processing (pdf_path : string) (e : exn)
| Msg_pyzbar_failed (pdf_path : string)
| Msg_opencv_decoded (data : string)
| Msg_opencv_failed
| Msg_opencv_decoding_failed (e : exn)
| Msg_processing (filename : string)
| Msg_already_correct (new_filename : string)
| Msg_renamed (new_filename : string)
| Msg_already_exists (new_filename : string)
| Msg_error_renaming (filename : string) (e : exn)
| Msg_not_found (filename : string)
| Msg_current_folder (folder : string).

(** What a file's processing ends in; read off the line the orchestrator
    prints for it. *)
Inductive outcome : Type :=
| Renamed
| SkippedAlreadyCorrect
| SkippedConflict
| Failed
| NotFound.

Definition outcome_of_message (m : message) : option outcome :=
  match m with
  | Msg_renamed _ => Some Renamed
  | Msg_already_correct _ => Some SkippedAlreadyCorrect
  | Msg_already_exists _ => Some SkippedConflict
  | Msg_error_renaming _ _ => Some Failed
  | Msg_not_found _ => Some NotFound
  | _ => None
  end.

Section Script.

Context `{C : Collaborators}.

(** What the run leaves behind, in order: the calls that matter to the
    properties below, and the printed lines. *)
Inductive event : Type :=
| Call_os_listdir (folder_path : string)
| Call_fitz_open (pdf_path : string)
| Call_document_close (d : document)
| Call_Image_close (i : image)
| Call_pyzbar_decode (i : image)
| Call_detectAndDecode (a : ndarray)
| Call_os_rename (src dst : string)
| Stdout (m : message).

Definition trace : Type := list event.

(** ** A monad for Python blocks

    A block runs on a state [S] (the local variables that matter, or the file
    system), and ends normally, by [return], or by a raised exception; the
    state reached is kept in each case. *)
Inductive ctl (R A : Type) : Type :=
| Normal (a : A)
| Return (r : R)
| Raise (e : exn).
Arguments Normal {R A} a.
Arguments Return {R A} r.
Arguments Raise {R A} e.

Definition M (S R A : Type) : Type := S -> ctl R A * S * trace.

Definition ret {S R A : Type} (a : A) : M S R A :=
  fun s => (Normal a, s, []).

Definition bind {S R A B : Type} (m : M S R A) (k : A -> M S R B) : M S R B :=
  fun s =>
    match m s with
    | (Normal a, s1, t1) => let '(c, s2, t2) := k a s1 in (c, s2, t1 ++ t2)
    | (Return r, s1, t1) => (Return r, s1, t1)
    | (Raise e, s1, t1) => (Raise e, s1, t1)
    end.

Definition return_ {S R A : Type} (r : R) : M S R A :=
  fun s => (Return r, s, []).

Definition get {S R : Type} : M S R S :=
  fun s => (Normal s, s, []).

Definition put {S R : Type} (s' : S) : M S R unit :=
  fun _ => (Normal tt, s', []).

Definition emit {S R : Type} (ev : event) : M S R unit :=
  fun s => (Normal tt, s, [ev]).

Definition print {S R : Type} (m : message) : M S R unit :=
  emit (Stdout m).

(** A call into a library. *)
Definition call_lib {S R A : Type} (r : res A) : M S R A :=
  fun s => (match r with Ok a => Normal a | Exc e => Raise e end, s, []).

(** A call of one of the script's own functions. *)
Definition call_fn {S R A : Type} (f : res A * trace) : M S R A :=
  fun s => (match fst f with Ok a => Normal a | Exc e => Raise e end, s, snd f).

(** [try: body / except Exception as e: handler e] *)
Definition try_except {S R A : Type}
    (body : M S R A) (handler : exn -> M S R A) : M S R A :=
  fun s =>
    match body s with
    | (Raise e, s1, t1) => let '(c, s2, t2) := handler e s1 in (c, s2, t1 ++ t2)
    | r => r
    end.

(** [try: body / finally: final].  The final block runs however the body
    ended; when it ends normally the body's ending stands, otherwise its own
    ending replaces it. *)
Definition try_finally {S R A : Type}
    (body : M S R A) (final : M S R unit) : M S R A :=
  fun s =>
    let '(c, s1, t1) := body s in
    match final s1 with
    | (Normal _, s2, t2) => (c, s2, t1 ++ t2)
    | (Return r, s2, t2) => (Return r, s2, t1 ++ t2)
    | (Raise e, s2, t2) => (Raise e, s2, t1 ++ t2)
    end.

(** [for x in l: body x] *)
Fixpoint for_each {S R A : Type} (l : list A) (body : A -> M S R unit)
    : M S R unit :=
  match l with
  | [] => ret tt
  | x :: l' => bind (body x) (fun _ => for_each l' body)
  end.

(** A function whose every path ends in [return]. *)
Definition run_function {S R : Type} (body : M S R Empty_set) (s : S)
    : res R * trace :=
  let '(c, _, t) := body s in
  (match c with
   | Normal a => match a with end
   | Return r => Ok r
   | Raise e => Exc e
   end, t).

(** A function that falls off its end (and so returns [None]). *)
Definition run_procedure {S : Type} (body : M S unit unit) (s : S)
    : res unit * S * trace :=
  let '(c, s', t) := body s in
  (match c with
   | Normal _ => Ok tt
   | Return _ => Ok tt
   | Raise e => Exc e
   end, s', t).

Declare Scope py_scope.
Delimit Scope py_scope with py.
Notation "x <- m ;; k" := (bind m (fun x => k))
  (at level 61, m at next level, right associativity) : py_scope.
Notation "m ;; k" := (bind m (fun _ => k))
  (at level 61, right associativity) : py_scope.
Local Open Scope py_scope.

(** ** The script *)

(** [with fitz.open(...) as pdf_document: body]: the document is closed
    however the body ends. *)
Definition with_document {S R A : Type} (d : document) (body : M S R A)
    : M S R A :=
  try_finally body (emit (Call_document_close d)).

(** [image.close()] *)
Definition Image_close {S R : Type} (i : image) : M S R unit :=
  emit (Call_Image_close i).

(** Lines 26-29: the box around the corner points. *)
Definition bounding_box (points : list (Q * Q)) : res box :=
  match py_min (map fst points), py_min (map snd points),
        py_max (map fst points), py_max (map snd points) with
  | Ok x_min, Ok y_min, Ok x_max, Ok y_max =>
      Ok (py_int x_min, py_int y_min, py_int x_max, py_int y_max)
  | Exc e, _, _, _ => Exc e
  | _, Exc e, _, _ => Exc e
  | _, _, Exc e, _ => Exc e
  | _, _, _, Exc e => Exc e
  end.

(** [detect_and_crop_qr_code(image)].  The state is the local [image], which
    line 17 may rebind before a later line raises. *)
Definition detect_and_crop_qr_code (image0 : image) : res image * trace :=
  run_function
    (try_except
       (image1 <- get ;;
        (if negb (String.eqb (Image_mode image1) "RGB")
         then (converted <- call_lib (Image_convert image1 "RGB") ;;
               put converted)
         else ret tt) ;;
        image2 <- get ;;
        arr <- call_lib (np_array image2) ;;
        gray <- call_lib (cv2_cvtColor_RGB2GRAY arr) ;;
        points <- call_lib (QRCodeDetector_detect gray) ;;
        match points with
        | Some points =>
            points0 <- call_lib (getitem0 points) ;;
            b <- call_lib (bounding_box points0) ;;
            let '(x_min, y_min, x_max, y_max) := b in
            print (Msg_detected x_min y_min x_max y_max) ;;
            image3 <- get ;;
            cropped <- call_lib (Image_crop image3 (x_min, y_min, x_max, y_max)) ;;
            return_ cropped
        | None => print Msg_no_qr_detected
        end)
       (fun e => print (Msg_detection_failed e)) ;;
     image4 <- get ;;
     return_ image4)
    image0.

(** What lines 16-17 leave in the local [image]. *)
Definition rgb_image (i : image) : res image :=
  if String.eqb (Image_mode i) "RGB" then Ok i else Image_convert i "RGB".

(** What lines 20-22 give for the RGB image [i]: the corner points, [None]
    when no quadrilateral is located, or the exception raised on the way. *)
Definition located (i : image) : res (option (list (list (Q * Q)))) :=
  match np_array i with
  | Exc e => Exc e
  | Ok arr =>
      match cv2_cvtColor_RGB2GRAY arr with
      | Exc e => Exc e
      | Ok gray => QRCodeDetector_detect gray
      end
  end.

(** [preprocess_image(image)] *)
Definition preprocess_image (image0 : image) : res image * trace :=
  run_function (S := unit)
    (try_except
       (arr <- call_lib (np_array image0) ;;
        gray <- call_lib (cv2_cvtColor_RGB2GRAY arr) ;;
        binary <- call_lib (cv2_threshold gray 128 255
                              (Z.lor cv2_THRESH_BINARY cv2_THRESH_OTSU)) ;;
        binarized <- call_lib (Image_fromarray binary) ;;
        return_ binarized)
       (fun e =>
          print (Msg_preprocessing_failed e) ;;
          return_ image0))
    tt.

(** [extract_qr_code_with_opencv(image)]: the decoded text, or [None]. *)
Definition extract_qr_code_with_opencv (image0 : image)
    : res (option string) * trace :=
  run_function (S := unit)
    (try_except
       (arr <- call_lib (np_array image0) ;;
        emit (Call_detectAndDecode arr) ;;
        data <- call_lib (QRCodeDetector_detectAndDecode arr) ;;
        (if truthy_str data
         then print (Msg_opencv_decoded data)
         else print Msg_opencv_failed) ;;
        return_ (Some data))
       (fun e =>
          print (Msg_opencv_decoding_failed e) ;;
          return_ None))
    tt.

(** The locals of [extract_qr_code_from_pdf] that its [finally] block reads;
    [None] is a name not bound yet. *)
Record frame : Type := {
  image_var : option image;
  cropped_image_var : option image
}.

Definition store_image {R : Type} (i : image) : M frame R unit :=
  fun s => (Normal tt,
            {| image_var := Some i; cropped_image_var := cropped_image_var s |},
            []).

Definition store_cropped_image {R : Type} (i : image) : M frame R unit :=
  fun s => (Normal tt,
            {| image_var := image_var s; cropped_image_var := Some i |},
            []).

Definition load_image {R : Type} : M frame R image :=
  fun s =>
    (match image_var s with
     | Some i => Normal i
     | None => Raise (UnboundLocalError "image")
     end, s, []).

Definition load_cropped_image {R : Type} : M frame R image :=
  fun s =>
    (match cropped_image_var s with
     | Some i => Normal i
     | None => Raise (UnboundLocalError "cropped_image")
     end, s, []).

(** Lines 72-80: the two decoders, on the cropped image. *)
Definition decode_stage (pdf_path : string) : M frame (option string) unit :=
  cropped <- load_cropped_image ;;
  emit (Call_pyzbar_decode cropped) ;;
  qr_codes <- call_lib (pyzbar_decode_QRCODE cropped) ;;
  (if truthy_list qr_codes
   then (first <- call_lib (getitem0 qr_codes) ;;
         text <- call_lib (bytes_decode_utf8 first) ;;
         return_ (Some text))
   else ret tt) ;;
  print (Msg_pyzbar_failed pdf_path) ;;
  cropped' <- load_cropped_image ;;
  qr_content <- call_fn (extract_qr_code_with_opencv cropped') ;;
  if truthy_opt qr_content then return_ qr_content else ret tt.

(** Lines 83-86: the [finally] block. *)
Definition release {R : Type} : M frame R unit :=
  i <- load_image ;;
  Image_close i ;;
  c <- load_cropped_image ;;
  Image_close c.

(** [extract_qr_code_from_pdf(pdf_path)], reading the file system [fs]. *)
Definition extract_qr_code_from_pdf (fs : filesystem) (pdf_path : string)
    : res (option string) * trace :=
  run_function
    (try_finally
       (try_except
          (emit (Call_fitz_open pdf_path) ;;
           pdf_document <- call_lib (fitz_open fs pdf_path) ;;
           with_document pdf_document
             (page0 <- call_lib (Document_getitem pdf_document 0) ;;
              pix <- call_lib (Page_get_pixmap page0 300) ;;
              raster <- call_lib (Image_frombytes "RGB" pix) ;;
              store_image raster ;;
              i <- load_image ;;
              binarized <- call_fn (preprocess_image i) ;;
              store_image binarized ;;
              i' <- load_image ;;
              cropped <- call_fn (detect_and_crop_qr_code i') ;;
              store_cropped_image cropped ;;
              decode_stage pdf_path))
          (fun e => print (Msg_error_processing pdf_path e)))
       release ;;
     return_ None)
    {| image_var := None; cropped_image_var := None |}.

(** What lines 56-59 produce: the raster of the first page, or the
    exception of the first of the four calls that raises. *)
Definition page_raster (fs : filesystem) (pdf_path : string) : res image :=
  match fitz_open fs pdf_path with
  | Exc e => Exc e
  | Ok pdf_document =>
      match Document_getitem pdf_document 0 with
      | Exc e => Exc e
      | Ok page0 =>
          match Page_get_pixmap page0 300 with
          | Exc e => Exc e
          | Ok pix => Image_frombytes "RGB" pix
          end
      end
  end.

(** [f"{qr_content}.pdf"] *)
Definition pdf_name (qr_content : string) : string :=
  (qr_content ++ ".pdf")%string.

(** The body of the loop of [rename_pdfs_in_folder], for one directory
    entry.  The state is the file system.  The [continue] of line 121 is the
    [then] branch below; what follows it in the source is the [else]. *)
Definition process_entry (folder_path filename : string)
    : M filesystem unit unit :=
  if is_pdf_name filename then
    let pdf_path := os_path_join folder_path filename in
    print (Msg_processing filename) ;;
    fs <- get ;;
    qr_content <- call_fn (extract_qr_code_from_pdf fs pdf_path) ;;
    match qr_content with
    | Some content =>
        if truthy_str content then
          let new_filename := pdf_name content in
          let new_path := os_path_join folder_path new_filename in
          if String.eqb (os_path_abspath pdf_path) (os_path_abspath new_path)
          then print (Msg_already_correct new_filename)
          else
            try_except
              (fs1 <- get ;;
               emit (Call_os_rename pdf_path new_path) ;;
               fs2 <- call_lib (os_rename fs1 pdf_path new_path) ;;
               put fs2 ;;
               print (Msg_renamed new_filename))
              (fun e =>
                 if is_FileExistsError e
                 then print (Msg_already_exists new_filename)
                 else print (Msg_error_renaming filename e))
        else print (Msg_not_found filename)
    | None => print (Msg_not_found filename)
    end
  else ret tt.

(** [rename_pdfs_in_folder(folder_path)]: the directory is listed once,
    before the first entry is processed. *)
Definition rename_pdfs_in_folder (folder_path : string) (fs : filesystem)
    : res unit * filesystem * trace :=
  run_procedure
    (fs0 <- get ;;
     emit (Call_os_listdir folder_path) ;;
     names <- call_lib (os_listdir fs0 folder_path) ;;
     for_each names (process_entry folder_path))
    fs.

(** The [__main__] block, from the folder the program lives in. *)
Definition main (current_folder : string) (fs : filesystem)
    : res unit * filesystem * trace :=
  run_procedure
    (print (Msg_current_folder current_folder) ;;
     fs0 <- get ;;
     let '(r, fs1, t) := rename_pdfs_in_folder current_folder fs0 in
     put fs1 ;;
     call_fn (r, t))
    fs.

(** ** Reading a trace *)

(** The outcomes printed, in order. *)
Fixpoint outcomes (t : trace) : list outcome :=
  match t with
  | [] => []
  | Stdout m :: t' =>
      match outcome_of_message m with
      | Some o => o :: outcomes t'
      | None => outcomes t'
      end
  | _ :: t' => outcomes t'
  end.

(** The calls of [os.rename], as (source, destination). *)
Fixpoint renames (t : trace) : list (string * string) :=
  match t with
  | [] => []
  | Call_os_rename src dst :: t' => (src, dst) :: renames t'
  | _ :: t' => renames t'
  end.

(** The directories listed. *)
Fixpoint listed (t : trace) : list string :=
  match t with
  | [] => []
  | Call_os_listdir d :: t' => d :: listed t'
  | _ :: t' => listed t'
  end.

(** The entries whose processing started (line 113). *)
Fixpoint processed (t : trace) : list string :=
  match t with
  | [] => []
  | Stdout (Msg_processing f) :: t' => f :: processed t'
  | _ :: t' => processed t'
  end.

(** The paths handed to [fitz.open]. *)
Fixpoint opened (t : trace) : list string :=
  match t with
  | [] => []
  | Call_fitz_open p :: t' => p :: opened t'
  | _ :: t' => opened t'
  end.

(** The decoder calls, in order: [inl] for pyzbar (primary), [inr] for
    OpenCV's detect-and-decode (secondary). *)
Fixpoint decoder_calls (t : trace) : list (image + ndarray) :=
  match t with
  | [] => []
  | Call_pyzbar_decode i :: t' => inl i :: decoder_calls t'
  | Call_detectAndDecode a :: t' => inr a :: decoder_calls t'
  | _ :: t' => decoder_calls t'
  end.

(** The images closed and the documents closed. *)
Fixpoint closed_images (t : trace) : list image :=
  match t with
  | [] => []
  | Call_Image_close i :: t' => i :: closed_images t'
  | _ :: t' => closed_images t'
  end.

Fixpoint closed_documents (t : trace) : list document :=
  match t with
  | [] => []
  | Call_document_close d :: t' => d :: closed_documents t'
  | _ :: t' => closed_documents t'
  end.

(** The lines that the image helpers print; none of them is an outcome. *)
Definition is_note (ev : event) : Prop :=
  match ev with
  | Stdout (Msg_detected _ _ _ _) => True
  | Stdout Msg_no_qr_detected => True
  | Stdout (Msg_detection_failed _) => True
  | Stdout (Msg_preprocessing_failed _) => True
  | _ => False
  end.

(** The detector's answer was "not found": one of the two lines that
    [detect_and_crop_qr_code] prints when it gives the image back whole. *)
Definition signals_not_found (t : trace) : Prop :=
  In (Stdout Msg_no_qr_detected) t \/
  exists e, In (Stdout (Msg_detection_failed e)) t.

(** [r] is [i] uncropped: [i] itself, or its conversion to RGB (line 17). *)
Definition uncropped (i r : image) : Prop :=
  r = i \/ Image_convert i "RGB" = Ok r.

(** No quadrilateral is located in [i], or the search for one raises. *)
Definition no_region (i : image) : Prop :=
  match rgb_image i with
  | Exc _ => True
  | Ok src =>
      match located src with
      | Ok (Some _) => False
      | _ => True
      end
  end.

(** [detect_and_crop_qr_code] does not get to return a crop of [i]: no
    quadrilateral is located, or one of the steps of lines 16-31 raises (the
    conversion, the search, [points[0]], [min]/[max]/[int], or the crop
    itself).  The complement is a located quadrilateral with a box and a
    successful crop. *)
Definition no_crop (i : image) : Prop :=
  match rgb_image i with
  | Exc _ => True
  | Ok src =>
      match located src with
      | Ok (Some points) =>
          match getitem0 points with
          | Exc _ => True
          | Ok quad =>
              match bounding_box quad with
              | Exc _ => True
              | Ok b =>
                  match Image_crop src b with
                  | Exc _ => True
                  | Ok _ => False
                  end
              end
          end
      | _ => True
      end
  end.

(** The entry [f] of [folder] already carries the name its payload gives. *)
Definition correctly_named (fs : filesystem) (folder f : string) : bool :=
  match fst (extract_qr_code_from_pdf fs (os_path_join folder f)) with
  | Ok (Some content) =>
      (truthy_str content &&
       String.eqb (os_path_abspath (os_path_join folder f))
         (os_path_abspath (os_path_join folder (pdf_name content))))%bool
  | _ => false
  end.

(** The exit status of the interpreter: 0 when [main] ends, 1 when an
    exception leaves it. *)
Definition exit_status {A : Type} (r : res A) : Z :=
  match r with Ok _ => 0 | Exc _ => 1 end.

End Script.

Arguments Normal {R A} a.
Arguments Return {R A} r.
Arguments Raise {R A} e.

(** ** A simulated host

    A concrete instance of the collaborators, for runs that compute.  A file
    is described by what the libraries make of it; the file system is the
    list of the entries, keyed by absolute path, in listing order.
    [os.rename] follows the Python documentation: on Windows it raises
    [FileExistsError] whenever the destination exists; on Unix a destination
    that is a file is replaced silently.  Paths are taken already absolute
    and normal, and a name holds no separator. *)
Module Sim.

Inductive platform : Type := Windows | Posix.

(** What the libraries find on a rendered first page. *)
Record page_desc : Type := {
  corners : res (option (list (list (Q * Q))));
  zbar : res (list string);
  opencv : res string
}.

Inductive pdf_file : Type :=
| Corrupt
| NoPages
| Pdf (first_page : page_desc).

Inductive node : Type :=
| File (content : pdf_file)
| Directory.

Definition files : Type := list (string * node).

Record raster : Type := {
  shown : page_desc;
  mode : string;
  cropped_to : option box
}.

Definition sep (p : platform) : string :=
  match p with Windows => "\" | Posix => "/" end.

Fixpoint lookup (k : string) (fs : files) : option node :=
  match fs with
  | [] => None
  | (k', n) :: fs' => if String.eqb k k' then Some n else lookup k fs'
  end.

Fixpoint remove (k : string) (fs : files) : files :=
  match fs with
  | [] => []
  | (k', n) :: fs' =>
      if String.eqb k k' then remove k fs' else (k', n) :: remove k fs'
  end.

Fixpoint rekey (src dst : string) (fs : files) : files :=
  match fs with
  | [] => []
  | (k', n) :: fs' =>
      if String.eqb src k' then (dst, n) :: fs' else (k', n) :: rekey src dst fs'
  end.

Fixpoint strip_prefix (p s : string) : option string :=
  match p, s with
  | EmptyString, _ => Some s
  | String a p', String b s' =>
      if Ascii.eqb a b then strip_prefix p' s' else None
  | String _ _, EmptyString => None
  end.

Fixpoint contains (p s : string) : bool :=
  match strip_prefix p s with
  | Some _ => true
  | None => match s with
            | EmptyString => false
            | String _ s' => contains p s'
            end
  end.

(** The name of [key] inside [folder], when [key] is directly in it. *)
Definition name_in (p : platform) (folder key : string) : option string :=
  match strip_prefix (folder ++ sep p)%string key with
  | Some name =>
      if (String.eqb name "" || contains (sep p) name)%bool then None
      else Some name
  | None => None
  end.

Fixpoint listdir (p : platform) (fs : files) (folder : string) : list string :=
  match fs with
  | [] => []
  | (k, _) :: fs' =>
      match name_in p folder k with
      | Some name => name :: listdir p fs' folder
      | None => listdir p fs' folder
      end
  end.

Definition join (p : platform) (a b : string) : string :=
  match strip_prefix (sep p) b with
  | Some _ => b
  | None => (a ++ sep p ++ b)%string
  end.

Definition has_children (p : platform) (fs : files) (dir : string) : bool :=
  existsb (fun e => match strip_prefix (dir ++ sep p)%string (fst e) with
                    | Some _ => true
                    | None => false
                    end) fs.

Definition rename (p : platform) (fs : files) (src dst : string) : res files :=
  match lookup src fs with
  | None => Exc FileNotFoundError
  | Some s =>
      if String.eqb src dst then Ok fs
      else
        match lookup dst fs with
        | None => Ok (rekey src dst fs)
        | Some d =>
            match p with
            | Windows => Exc FileExistsError
            | Posix =>
                match s, d with
                | File _, File _ => Ok (rekey src dst (remove dst fs))
                | File _, Directory => Exc IsADirectoryError
                | Directory, File _ => Exc NotADirectoryError
                | Directory, Directory =>
                    if has_children p fs dst
                    then Exc (OSError "Directory not empty")
                    else Ok (rekey src dst (remove dst fs))
                end
            end
        end
  end.

Definition open (fs : files) (path : string) : res pdf_file :=
  match lookup path fs with
  | None => Exc FileNotFoundError
  | Some Directory => Exc (LibraryError "FileDataError")
  | Some (File Corrupt) => Exc (LibraryError "FileDataError")
  | Some (File c) => Ok c
  end.

Definition getitem (d : pdf_file) (i : Z) : res page_desc :=
  match d with
  | Pdf pg => if i =? 0 then Ok pg else Exc IndexError
  | _ => Exc IndexError
  end.

Definition cvtColor (a : raster) : res raster :=
  if String.eqb (mode a) "RGB"
  then Ok {| shown := shown a; mode := "L"; cropped_to := cropped_to a |}
  else Exc (LibraryError "cv2.error").

Definition decode_ascii (b : string) : res string :=
  if forallb (fun c => Nat.ltb (nat_of_ascii c) 128) (list_ascii_of_string b)
  then Ok b else Exc UnicodeDecodeError.

#[local] Instance host (p : platform) : Collaborators := {|
  filesystem := files;
  document := pdf_file;
  page := page_desc;
  pixmap := page_desc;
  image := raster;
  ndarray := raster;
  bytes := string;
  os_listdir fs folder := Ok (listdir p fs folder);
  os_path_join := join p;
  os_path_abspath path := path;
  os_path_exists fs path :=
    match lookup path fs with Some _ => true | None => false end;
  os_rename := rename p;
  fitz_open := open;
  Document_getitem := getitem;
  Page_get_pixmap pg _ := Ok pg;
  Image_frombytes m pix := Ok {| shown := pix; mode := m; cropped_to := None |};
  Image_fromarray a := Ok a;
  Image_mode := mode;
  Image_convert i m :=
    Ok {| shown := shown i; mode := m; cropped_to := cropped_to i |};
  Image_crop i b :=
    Ok {| shown := shown i; mode := mode i; cropped_to := Some b |};
  np_array i := Ok i;
  cv2_cvtColor_RGB2GRAY := cvtColor;
  cv2_threshold a _ _ _ := Ok a;
  QRCodeDetector_detect a := corners (shown a);
  QRCodeDetector_detectAndDecode a := opencv (shown a);
  pyzbar_decode_QRCODE i := zbar (shown i);
  bytes_decode_utf8 := decode_ascii
|}.

Definition posix : Collaborators := host Posix.
Definition windows : Collaborators := host Windows.

(** A page on which pyzbar reads [payload], with no quadrilateral located. *)
Definition page_with (payload : string) : page_desc :=
  {| corners := Ok None; zbar := Ok [payload]; opencv := Ok payload |}.

(** A page without any QR code. *)
Definition blank_page : page_desc :=
  {| corners := Ok None; zbar := Ok []; opencv := Ok "" |}.

(** A page on which pyzbar itself raises. *)
Definition zbar_crash_page : page_desc :=
  {| corners := Ok None; zbar := Exc (LibraryError "zbar"); opencv := Ok "" |}.

(** A page with a quadrilateral at (10,10), (50,10), (50,60), (10,60). *)
Definition framed_page : page_desc :=
  {| corners := Ok (Some [[(10 # 1, 10 # 1); (50 # 1, 10 # 1);
                           (50 # 1, 60 # 1); (10 # 1, 60 # 1)]]);
     zbar := Ok ["INV-2024-001"]; opencv := Ok "INV-2024-001" |}.

(** The rendered page as the decoders receive it when nothing is cropped:
    binarized, then converted back to RGB. *)
Definition full_raster (pg : page_desc) : raster :=
  {| shown := pg; mode := "RGB"; cropped_to := None |}.

Definition binarized (pg : page_desc) : raster :=
  {| shown := pg; mode := "L"; cropped_to := None |}.

(** [A.pdf] carries the payload [X] while [X.pdf] exists. *)
Definition collision_dir : files :=
  [("/d/A.pdf", File (Pdf (page_with "X")));
   ("/d/X.pdf", File (Pdf (page_with "Y")))].

Definition collision_dir_windows : files :=
  [("C:\docs\A.pdf", File (Pdf (page_with "X")));
   ("C:\docs\X.pdf", File (Pdf (page_with "Y")))].

(** A file that cannot be opened, listed before a good one. *)
Definition batch_dir : files :=
  [("/d/bad.pdf", File Corrupt);
   ("/d/good.pdf", File (Pdf (page_with "X")))].

(** A document without pages. *)
Definition empty_doc_dir : files := [("/d/empty.pdf", File NoPages)].

(** Every PDF already carries the name of its payload. *)
Definition settled_dir : files :=
  [("/d/X.pdf", File (Pdf (page_with "X")));
   ("/d/notes.txt", File Corrupt);
   ("/d/Y.pdf", File (Pdf (page_with "Y")))].

(** No entry with a PDF name; the only PDF sits in a subdirectory. *)
Definition no_pdf_dir : files :=
  [("/d/notes.txt", File Corrupt);
   ("/d/sub", Directory);
   ("/d/sub/inner.pdf", File (Pdf (page_with "X")))].

Definition blank_dir : files := [("/d/scan.pdf", File (Pdf blank_page))].

Definition crash_dir : files := [("/d/scan.pdf", File (Pdf zbar_crash_page))].

Definition framed_dir : files := [("/d/scan.pdf", File (Pdf framed_page))].

Definition empty_payload_dir : files :=
  [("/d/scan.pdf", File (Pdf (page_with "")))].

(** The name that [A.pdf] should take is the name of a subdirectory. *)
Definition taken_by_directory_dir : files :=
  [("/d/A.pdf", File (Pdf (page_with "X")));
   ("/d/X.pdf", Directory)].

(** A page on which the detector answers with an empty array of
    quadrilaterals, so that [points[0]] raises. *)
Definition empty_corners_page : page_desc :=
  {| corners := Ok (Some []); zbar := Ok []; opencv := Ok "" |}.

Definition empty_corners_dir : files :=
  [("/d/scan.pdf", File (Pdf empty_corners_page))].

(** A subdirectory with a PDF name, listed before a good file. *)
Definition archive_dir : files :=
  [("/d/archive.pdf", Directory);
   ("/d/good.pdf", File (Pdf (page_with "X")))].

(** [X.pdf] carries the payload [Y] and is listed before [A.pdf], which
    carries the payload [X]. *)
Definition chain_dir_windows : files :=
  [("C:\docs\X.pdf", File (Pdf (page_with "Y")));
   ("C:\docs\A.pdf", File (Pdf (page_with "X")))].

End Sim.

Arguments preprocess_image : simpl never.
Arguments detect_and_crop_qr_code : simpl never.
Arguments extract_qr_code_with_opencv : simpl never.
Arguments extract_qr_code_from_pdf : simpl never.
Arguments decode_stage : simpl never.

(** * Properties *)

(** Unfolds the monad and the script's helpers. *)
Ltac py_unfold :=
  cbv [run_function run_procedure try_except try_finally with_document
       bind ret return_ get put emit print call_lib call_fn Image_close
       store_image store_cropped_image load_image load_cropped_image
       image_var cropped_image_var fst snd].

(** Splits on the first library answer or test that blocks the evaluation. *)
Ltac py_case :=
  match goal with
  | |- context [match ?x with _ => _ end] =>
      first
        [ is_var x; destruct x
        | lazymatch x with
          | context [match _ with _ => _ end] => fail
          | _ => destruct x eqn:?
          end ]
  end.

Ltac py_cases := repeat (cbn; py_case).

(** Closes a goal on a reading of a trace whose parts read as empty. *)
Ltac now_silent :=
  repeat match goal with
         | H : _ = [] |- _ => rewrite H; clear H
         end;
  reflexivity.

Section Properties.

Context `{C : Collaborators}.

(** ** Traces of a sequence *)

Lemma outcomes_app (t1 t2 : trace) :
  outcomes (t1 ++ t2) = outcomes t1 ++ outcomes t2.
Proof.
  induction t1 as [|ev t1 IH]; [reflexivity|].
  destruct ev; cbn; auto.
  destruct (outcome_of_message m); cbn; congruence.
Qed.

Lemma renames_app (t1 t2 : trace) :
  renames (t1 ++ t2) = renames t1 ++ renames t2.
Proof.
  induction t1 as [|ev t1 IH]; [reflexivity|].
  destruct ev; cbn; congruence.
Qed.

Lemma processed_app (t1 t2 : trace) :
  processed (t1 ++ t2) = processed t1 ++ processed t2.
Proof.
  induction t1 as [|ev t1 IH]; [reflexivity|].
  destruct ev; cbn; auto.
  destruct m; cbn; congruence.
Qed.

Lemma opened_app (t1 t2 : trace) :
  opened (t1 ++ t2) = opened t1 ++ opened t2.
Proof.
  induction t1 as [|ev t1 IH]; [reflexivity|].
  destruct ev; cbn; congruence.
Qed.

Lemma decoder_calls_app (t1 t2 : trace) :
  decoder_calls (t1 ++ t2) = decoder_calls t1 ++ decoder_calls t2.
Proof.
  induction t1 as [|ev t1 IH]; [reflexivity|].
  destruct ev; cbn; congruence.
Qed.

Lemma listed_app (t1 t2 : trace) :
  listed (t1 ++ t2) = listed t1 ++ listed t2.
Proof.
  induction t1 as [|ev t1 IH]; [reflexivity|].
  destruct ev; cbn; congruence.
Qed.

Lemma closed_images_app (t1 t2 : trace) :
  closed_images (t1 ++ t2) = closed_images t1 ++ closed_images t2.
Proof.
  induction t1 as [|ev t1 IH]; [reflexivity|].
  destruct ev; cbn; congruence.
Qed.

(** Notes leave no mark on any reading of the trace. *)
Lemma notes_silent (t : trace) :
  Forall is_note t ->
  outcomes t = [] /\ renames t = [] /\ processed t = [] /\ listed t = [] /\
  opened t = [] /\ decoder_calls t = [] /\ closed_images t = [].
Proof.
  induction 1 as [|ev t Hev _ IH]; [repeat split|].
  destruct ev; try contradiction.
  destruct m; try contradiction; cbn; exact IH.
Qed.

(** ** The image helpers never raise *)

Lemma preprocess_image_total (i : image) :
  exists r t, preprocess_image i = (Ok r, t) /\ Forall is_note t.
Proof.
  unfold preprocess_image. py_unfold. py_cases;
    eexists; eexists; (split; [reflexivity|]); repeat constructor.
Qed.

Lemma detect_and_crop_qr_code_total (i : image) :
  exists r t, detect_and_crop_qr_code i = (Ok r, t) /\ Forall is_note t.
Proof.
  unfold detect_and_crop_qr_code. py_unfold. py_cases;
    eexists; eexists; (split; [reflexivity|]); repeat constructor.
Qed.

Lemma extract_qr_code_with_opencv_total (i : image) :
  exists r t, extract_qr_code_with_opencv i = (Ok r, t) /\
              outcomes t = [] /\ renames t = [] /\ processed t = [] /\
              listed t = [] /\ opened t = [] /\ closed_images t = [].
Proof.
  unfold extract_qr_code_with_opencv. py_unfold. py_cases;
    eexists; eexists; (split; [reflexivity|]); repeat split.
Qed.

(** ** Extraction *)

(** The decoders do not touch the local variables. *)
Lemma decode_stage_frame (p : string) (s s' : frame)
    (c : ctl (option string) unit) (t : trace) :
  decode_stage p s = (c, s', t) -> s' = s.
Proof.
  destruct s as [iv [i|]]; unfold decode_stage; py_unfold;
    [|cbn; congruence].
  destruct (extract_qr_code_with_opencv_total i) as (r & t' & E & _).
  repeat (cbn; rewrite ?E; py_case); cbn; rewrite ?E; cbn; congruence.
Qed.


(** When no raster can be produced, the [finally] block reads the unbound
    [image]: the function raises instead of returning. *)
Lemma extract_unrendered (fs : filesystem) (p : string) (e : exn) :
  page_raster fs p = Exc e ->
  exists t,
    extract_qr_code_from_pdf fs p = (Exc (UnboundLocalError "image"), t) /\
    In (Stdout (Msg_error_processing p e)) t /\
    opened t = [p] /\ closed_images t = [] /\ decoder_calls t = [] /\
    outcomes t = [] /\ renames t = [] /\ processed t = [] /\ listed t = [].
Proof.
  unfold page_raster, extract_qr_code_from_pdf. py_unfold. intros H.
  repeat (cbn; py_case); try discriminate; cbn;
    inversion H; subst;
    eexists; (split; [reflexivity|]); cbn; intuition.
Qed.

(** Once the raster is there, the function returns what the decoders
    give, and closes the document and the two images it holds. *)
Lemma extract_rendered (fs : filesystem) (p : string) (d : document)
    (raster i c : image) (t1 t2 t3 : trace)
    (k : ctl (option string) unit) (s : frame) :
  fitz_open fs p = Ok d ->
  page_raster fs p = Ok raster ->
  preprocess_image raster = (Ok i, t1) ->
  detect_and_crop_qr_code i = (Ok c, t2) ->
  decode_stage p {| image_var := Some i; cropped_image_var := Some c |}
    = (k, s, t3) ->
  extract_qr_code_from_pdf fs p =
    (match k with Return r => Ok r | _ => Ok None end,
     Call_fitz_open p :: t1 ++ t2 ++ t3 ++ Call_document_close d ::
       match k with
       | Raise e => [Stdout (Msg_error_processing p e)]
       | _ => []
       end ++ [Call_Image_close i; Call_Image_close c]).
Proof.
  intros Hopen Hraster Hpre Hdet Hdec.
  assert (s = {| image_var := Some i; cropped_image_var := Some c |}) as ->
    by (eapply decode_stage_frame; eassumption).
  unfold page_raster in Hraster. rewrite Hopen in Hraster.
  destruct (Document_getitem d 0) as [pg|] eqn:Hpg; [|discriminate].
  destruct (Page_get_pixmap pg 300) as [pix|] eqn:Hpix; [|discriminate].
  unfold extract_qr_code_from_pdf. py_unfold.
  cbn. rewrite Hopen. cbn. rewrite Hpg. cbn. rewrite Hpix. cbn.
  rewrite Hraster. cbn. rewrite Hpre. cbn. rewrite Hdet. cbn.
  rewrite Hdec. destruct k; cbn; rewrite <- ?app_assoc; reflexivity.
Qed.


(** ** The region detector *)

Lemma min_from_spec (l : list Q) (m : Q) :
  In (min_from m l) (m :: l) /\
  forall x, In x (m :: l) -> (min_from m l <= x)%Q.
Proof.
  revert m. induction l as [|y l IH]; intros m; cbn [min_from].
  - split; [now left|]. intros x [<-|[]]. apply Qle_refl.
  - destruct (Qlt_le_dec y m) as [Hlt|Hle].
    + destruct (IH y) as [Hin Hmin]. split.
      * right. exact Hin.
      * intros x [<-|Hx].
        -- apply Qle_trans with y; [apply Hmin; now left|].
           now apply Qlt_le_weak.
        -- now apply Hmin.
    + destruct (IH m) as [Hin Hmin]. split.
      * destruct Hin as [<-|Hin]; [now left|right; now right].
      * intros x [<-|[<-|Hx]].
        -- apply Hmin. now left.
        -- apply Qle_trans with m; [apply Hmin; now left|exact Hle].
        -- apply Hmin. now right.
Qed.

Lemma max_from_spec (l : list Q) (m : Q) :
  In (max_from m l) (m :: l) /\
  forall x, In x (m :: l) -> (x <= max_from m l)%Q.
Proof.
  revert m. induction l as [|y l IH]; intros m; cbn [max_from].
  - split; [now left|]. intros x [<-|[]]. apply Qle_refl.
  - destruct (Qlt_le_dec m y) as [Hlt|Hle].
    + destruct (IH y) as [Hin Hmax]. split.
      * right. exact Hin.
      * intros x [<-|Hx].
        -- apply Qle_trans with y; [now apply Qlt_le_weak|].
           apply Hmax. now left.
        -- now apply Hmax.
    + destruct (IH m) as [Hin Hmax]. split.
      * destruct Hin as [<-|Hin]; [now left|right; now right].
      * intros x [<-|[<-|Hx]].
        -- apply Hmax. now left.
        -- apply Qle_trans with m; [exact Hle|apply Hmax; now left].
        -- apply Hmax. now right.
Qed.

(** On whole-pixel coordinates the builtins agree with [Z.min], [Z.max]. *)
Lemma min_from_inject_Z (l : list Z) (m : Z) :
  min_from (inject_Z m) (map inject_Z l) = inject_Z (fold_left Z.min l m).
Proof.
  revert m. induction l as [|y l IH]; intros m; [reflexivity|].
  cbn [map min_from fold_left].
  destruct (Qlt_le_dec (inject_Z y) (inject_Z m)) as [H|H].
  - rewrite <- Zlt_Qlt in H. rewrite IH. f_equal. f_equal. lia.
  - rewrite <- Zle_Qle in H. rewrite IH. f_equal. f_equal. lia.
Qed.

Lemma max_from_inject_Z (l : list Z) (m : Z) :
  max_from (inject_Z m) (map inject_Z l) = inject_Z (fold_left Z.max l m).
Proof.
  revert m. induction l as [|y l IH]; intros m; [reflexivity|].
  cbn [map max_from fold_left].
  destruct (Qlt_le_dec (inject_Z m) (inject_Z y)) as [H|H].
  - rewrite <- Zlt_Qlt in H. rewrite IH. f_equal. f_equal. lia.
  - rewrite <- Zle_Qle in H. rewrite IH. f_equal. f_equal. lia.
Qed.

Lemma py_int_inject_Z (z : Z) : py_int (inject_Z z) = z.
Proof. unfold py_int, inject_Z. cbn. apply Z.quot_1_r. Qed.

(** The whole of [detect_and_crop_qr_code], by cases on what the libraries
    answer. *)
Lemma detect_and_crop_qr_code_cases (i : image) :
  detect_and_crop_qr_code i =
  match rgb_image i with
  | Exc e => (Ok i, [Stdout (Msg_detection_failed e)])
  | Ok src =>
      match located src with
      | Exc e => (Ok src, [Stdout (Msg_detection_failed e)])
      | Ok None => (Ok src, [Stdout Msg_no_qr_detected])
      | Ok (Some points) =>
          match getitem0 points with
          | Exc e => (Ok src, [Stdout (Msg_detection_failed e)])
          | Ok quad =>
              match bounding_box quad with
              | Exc e => (Ok src, [Stdout (Msg_detection_failed e)])
              | Ok (x_min, y_min, x_max, y_max) =>
                  match Image_crop src (x_min, y_min, x_max, y_max) with
                  | Ok r => (Ok r, [Stdout (Msg_detected x_min y_min x_max y_max)])
                  | Exc e =>
                      (Ok src, [Stdout (Msg_detected x_min y_min x_max y_max);
                                Stdout (Msg_detection_failed e)])
                  end
              end
          end
      end
  end.
Proof.
  unfold detect_and_crop_qr_code, rgb_image, located. py_unfold.
  destruct (String.eqb (Image_mode i) "RGB"); cbn.
  - destruct (np_array i) as [arr|]; cbn; [|reflexivity].
    destruct (cv2_cvtColor_RGB2GRAY arr) as [gray|]; cbn; [|reflexivity].
    destruct (QRCodeDetector_detect gray) as [[points|]|]; cbn;
      try reflexivity.
    destruct (getitem0 points) as [quad|]; cbn; [|reflexivity].
    destruct (bounding_box quad) as [[[[x0 y0] x1] y1]|]; cbn; [|reflexivity].
    destruct (Image_crop i (x0, y0, x1, y1)); reflexivity.
  - destruct (Image_convert i "RGB") as [src|]; cbn; [|reflexivity].
    destruct (np_array src) as [arr|]; cbn; [|reflexivity].
    destruct (cv2_cvtColor_RGB2GRAY arr) as [gray|]; cbn; [|reflexivity].
    destruct (QRCodeDetector_detect gray) as [[points|]|]; cbn;
      try reflexivity.
    destruct (getitem0 points) as [quad|]; cbn; [|reflexivity].
    destruct (bounding_box quad) as [[[[x0 y0] x1] y1]|]; cbn; [|reflexivity].
    destruct (Image_crop src (x0, y0, x1, y1)); reflexivity.
Qed.


(** ** The decoders *)

Lemma extract_qr_code_with_opencv_cases (i : image) :
  extract_qr_code_with_opencv i =
  match np_array i with
  | Exc e => (Ok None, [Stdout (Msg_opencv_decoding_failed e)])
  | Ok arr =>
      match QRCodeDetector_detectAndDecode arr with
      | Exc e => (Ok None, [Call_detectAndDecode arr;
                            Stdout (Msg_opencv_decoding_failed e)])
      | Ok data =>
          (Ok (Some data),
           [Call_detectAndDecode arr;
            Stdout (if truthy_str data then Msg_opencv_decoded data
                   else Msg_opencv_failed)])
      end
  end.
Proof.
  unfold extract_qr_code_with_opencv. py_unfold.
  destruct (np_array i) as [arr|]; cbn; [|reflexivity].
  destruct (QRCodeDetector_detectAndDecode arr) as [data|]; cbn;
    [|reflexivity].
  destruct (truthy_str data); reflexivity.
Qed.

(** pyzbar found a symbol: its text is returned, OpenCV is not called. *)
Lemma decode_stage_primary_found (p : string) (iv : option image) (c : image)
    (first : bytes) (others : list bytes) :
  pyzbar_decode_QRCODE c = Ok (first :: others) ->
  decode_stage p {| image_var := iv; cropped_image_var := Some c |} =
  (match bytes_decode_utf8 first with
   | Ok text => Return (Some text)
   | Exc e => Raise e
   end,
   {| image_var := iv; cropped_image_var := Some c |},
   [Call_pyzbar_decode c]).
Proof.
  intros H. unfold decode_stage. py_unfold. cbn. rewrite H. cbn.
  destruct (bytes_decode_utf8 first); reflexivity.
Qed.

(** pyzbar raised: the exception leaves the stage at once. *)
Lemma decode_stage_primary_raised (p : string) (iv : option image) (c : image) (e : exn) :
  pyzbar_decode_QRCODE c = Exc e ->
  decode_stage p {| image_var := iv; cropped_image_var := Some c |} =
  (Raise e, {| image_var := iv; cropped_image_var := Some c |},
   [Call_pyzbar_decode c]).
Proof.
  intros H. unfold decode_stage. py_unfold. cbn. rewrite H. reflexivity.
Qed.

(** pyzbar found nothing: OpenCV is tried on the same image. *)
Lemma decode_stage_primary_none (p : string) (iv : option image) (c : image)
    (r : option string) (t : trace) :
  pyzbar_decode_QRCODE c = Ok [] ->
  extract_qr_code_with_opencv c = (Ok r, t) ->
  decode_stage p {| image_var := iv; cropped_image_var := Some c |} =
  (if truthy_opt r then Return r else Normal tt,
   {| image_var := iv; cropped_image_var := Some c |},
   Call_pyzbar_decode c :: Stdout (Msg_pyzbar_failed p) :: t).
Proof.
  intros H E. unfold decode_stage. py_unfold. cbn. rewrite H. cbn.
  rewrite E. cbn. destruct (truthy_opt r); cbn; rewrite ?app_nil_r;
    reflexivity.
Qed.

Lemma decode_stage_trace (p : string) (s s' : frame)
    (k : ctl (option string) unit) (t : trace) :
  decode_stage p s = (k, s', t) ->
  outcomes t = [] /\ renames t = [] /\ processed t = [] /\
  listed t = [] /\ opened t = [] /\ closed_images t = [].
Proof.
  destruct s as [iv [c|]].
  - destruct (extract_qr_code_with_opencv_total c) as (r & t' & E & Ht').
    destruct (pyzbar_decode_QRCODE c) as [[|first others]|e] eqn:Hz.
    + rewrite (decode_stage_primary_none p _ _ _ _ Hz E).
      intros [= <- <- <-]. cbn. exact Ht'.
    + rewrite (decode_stage_primary_found p _ _ _ _ Hz).
      intros [= <- <- <-]. repeat split.
    + rewrite (decode_stage_primary_raised p _ _ _ Hz).
      intros [= <- <- <-]. repeat split.
  - unfold decode_stage. py_unfold. cbn. intros [= <- <- <-]. repeat split.
Qed.

(** What every run of the extraction leaves in the trace: one call of
    [fitz.open], and nothing that belongs to the orchestrator. *)
Lemma extract_trace (fs : filesystem) (p : string) :
  let t := snd (extract_qr_code_from_pdf fs p) in
  outcomes t = [] /\ renames t = [] /\ processed t = [] /\
  listed t = [] /\ opened t = [p].
Proof.
  destruct (page_raster fs p) as [raster|e] eqn:Hr.
  - assert (exists d, fitz_open fs p = Ok d) as [d Hd].
    { unfold page_raster in Hr. destruct (fitz_open fs p); [eauto|discriminate]. }
    destruct (preprocess_image_total raster) as (i & t1 & E1 & N1).
    destruct (detect_and_crop_qr_code_total i) as (c & t2 & E2 & N2).
    destruct (decode_stage p {| image_var := Some i; cropped_image_var := Some c |})
      as [[k s] t3] eqn:E3.
    rewrite (extract_rendered _ _ _ _ _ _ _ _ _ _ _ Hd Hr E1 E2 E3).
    apply notes_silent in N1. apply notes_silent in N2.
    apply decode_stage_trace in E3.
    destruct N1 as (? & ? & ? & ? & ? & _), N2 as (? & ? & ? & ? & ? & _),
             E3 as (? & ? & ? & ? & ? & _).
    cbn [snd outcomes renames processed listed opened].
    rewrite !outcomes_app, !renames_app, !processed_app, !listed_app,
      !opened_app.
    cbn [outcomes renames processed listed opened].
    rewrite !outcomes_app, !renames_app, !processed_app, !listed_app,
      !opened_app.
    destruct k; cbn; repeat split; now_silent.
  - destruct (extract_unrendered _ _ _ Hr) as (t & E & _ & ? & _ & _ & ? & ? & ? & ?).
    rewrite E. cbn. repeat split; assumption.
Qed.


(** ** One directory entry *)

Lemma process_entry_not_pdf (folder f : string) (fs : filesystem) :
  is_pdf_name f = false ->
  process_entry folder f fs = (Normal tt, fs, []).
Proof. intros H. unfold process_entry. rewrite H. reflexivity. Qed.

Lemma process_entry_raised (folder f : string) (fs : filesystem)
    (e : exn) (t : trace) :
  is_pdf_name f = true ->
  extract_qr_code_from_pdf fs (os_path_join folder f) = (Exc e, t) ->
  process_entry folder f fs = (Raise e, fs, Stdout (Msg_processing f) :: t).
Proof.
  intros H E. unfold process_entry. rewrite H. py_unfold. cbn.
  rewrite E. reflexivity.
Qed.

Lemma process_entry_no_payload (folder f : string) (fs : filesystem)
    (r : option string) (t : trace) :
  is_pdf_name f = true ->
  extract_qr_code_from_pdf fs (os_path_join folder f) = (Ok r, t) ->
  truthy_opt r = false ->
  process_entry folder f fs =
    (Normal tt, fs, Stdout (Msg_processing f) :: t ++ [Stdout (Msg_not_found f)]).
Proof.
  intros H E Hr. unfold process_entry. rewrite H. py_unfold. cbn.
  rewrite E. cbn. destruct r as [s|]; cbn in *; [rewrite Hr|]; reflexivity.
Qed.

Lemma process_entry_already_correct (folder f : string) (fs : filesystem)
    (content : string) (t : trace) :
  is_pdf_name f = true ->
  extract_qr_code_from_pdf fs (os_path_join folder f) = (Ok (Some content), t) ->
  truthy_str content = true ->
  os_path_abspath (os_path_join folder f) =
    os_path_abspath (os_path_join folder (pdf_name content)) ->
  process_entry folder f fs =
    (Normal tt, fs,
     Stdout (Msg_processing f) :: t ++
       [Stdout (Msg_already_correct (pdf_name content))]).
Proof.
  intros H E Hc Hsame. unfold process_entry. rewrite H. py_unfold. cbn.
  rewrite E. cbn. rewrite Hc, Hsame, String.eqb_refl. reflexivity.
Qed.

Lemma process_entry_rename (folder f : string) (fs : filesystem)
    (content : string) (t : trace) :
  is_pdf_name f = true ->
  extract_qr_code_from_pdf fs (os_path_join folder f) = (Ok (Some content), t) ->
  truthy_str content = true ->
  os_path_abspath (os_path_join folder f) <>
    os_path_abspath (os_path_join folder (pdf_name content)) ->
  process_entry folder f fs =
    let src := os_path_join folder f in
    let dst := os_path_join folder (pdf_name content) in
    match os_rename fs src dst with
    | Ok fs' =>
        (Normal tt, fs',
         Stdout (Msg_processing f) :: t ++
           [Call_os_rename src dst; Stdout (Msg_renamed (pdf_name content))])
    | Exc e =>
        (Normal tt, fs,
         Stdout (Msg_processing f) :: t ++
           [Call_os_rename src dst;
            Stdout (if is_FileExistsError e
                   then Msg_already_exists (pdf_name content)
                   else Msg_error_renaming f e)])
    end.
Proof.
  intros H E Hc Hdiff. apply String.eqb_neq in Hdiff.
  unfold process_entry. rewrite H. py_unfold. cbn.
  rewrite E. cbn. rewrite Hc, Hdiff.
  destruct (os_rename fs (os_path_join folder f)
              (os_path_join folder (pdf_name content))) as [fs'|e]; cbn;
    [reflexivity|].
  destruct (is_FileExistsError e); reflexivity.
Qed.

(** What processing one entry can do, whatever the libraries answer. *)
Lemma process_entry_summary (folder f : string) (fs : filesystem) :
  exists k fs' t,
    process_entry folder f fs = (k, fs', t) /\
    (k = Normal tt \/ exists e, k = Raise e) /\
    listed t = [] /\
    processed t = (if is_pdf_name f then [f] else []) /\
    opened t = (if is_pdf_name f then [os_path_join folder f] else []) /\
    (is_pdf_name f = false -> fs' = fs /\ t = []) /\
    (In Failed (outcomes t) -> renames t <> []).
Proof.
  destruct (is_pdf_name f) eqn:Hpdf.
  2:{ rewrite (process_entry_not_pdf _ _ _ Hpdf).
      do 3 eexists. split; [reflexivity|]. cbn. intuition. }
  pose proof (extract_trace fs (os_path_join folder f)) as Ht.
  destruct (extract_qr_code_from_pdf fs (os_path_join folder f))
    as [[r|e] t] eqn:E; cbn in Ht;
    destruct Ht as (Ho & Hn & Hp & Hl & Hopen).
  2:{ rewrite (process_entry_raised _ _ _ _ _ Hpdf E).
      do 3 eexists. split; [reflexivity|]. cbn.
      rewrite Ho, Hp, Hl, Hopen. intuition eauto; discriminate. }
  destruct (truthy_opt r) eqn:Hr.
  2:{ rewrite (process_entry_no_payload _ _ _ _ _ Hpdf E Hr).
      do 3 eexists. split; [reflexivity|]. cbn.
      rewrite outcomes_app, processed_app, listed_app, opened_app.
      rewrite Ho, Hp, Hl, Hopen. cbn.
      intuition eauto; discriminate. }
  destruct r as [content|]; [cbn in Hr|discriminate].
  destruct (string_dec (os_path_abspath (os_path_join folder f))
              (os_path_abspath (os_path_join folder (pdf_name content))))
    as [Hsame|Hdiff].
  - rewrite (process_entry_already_correct _ _ _ _ _ Hpdf E Hr Hsame).
    do 3 eexists. split; [reflexivity|]. cbn.
    rewrite outcomes_app, processed_app, listed_app, opened_app.
    rewrite Ho, Hp, Hl, Hopen. cbn.
    intuition eauto; discriminate.
  - rewrite (process_entry_rename _ _ _ _ _ Hpdf E Hr Hdiff). cbn.
    destruct (os_rename fs (os_path_join folder f)
                (os_path_join folder (pdf_name content))) as [fs'|e].
    + do 3 eexists. split; [reflexivity|]. cbn.
      rewrite outcomes_app, renames_app, processed_app, listed_app,
        opened_app.
      rewrite Ho, Hn, Hp, Hl, Hopen. cbn.
      intuition eauto; discriminate.
    + do 3 eexists. split; [reflexivity|]. cbn.
      rewrite outcomes_app, renames_app, processed_app, listed_app,
        opened_app.
      rewrite Ho, Hn, Hp, Hl, Hopen. cbn.
      destruct (is_FileExistsError e); cbn; intuition eauto; discriminate.
Qed.

(** ** The whole directory *)

Lemma rename_pdfs_in_folder_loop (folder : string) (fs : filesystem)
    (names : list string) :
  os_listdir fs folder = Ok names ->
  rename_pdfs_in_folder folder fs =
    let '(k, fs', t) := for_each names (process_entry folder) fs in
    (match k with Raise e => Exc e | _ => Ok tt end,
     fs', Call_os_listdir folder :: t).
Proof.
  intros H. unfold rename_pdfs_in_folder. py_unfold. cbn. rewrite H. cbn.
  destruct (for_each names (process_entry folder) fs) as [[k fs'] t].
  destruct k; reflexivity.
Qed.

Lemma for_each_entries (folder : string) (names : list string)
    (fs : filesystem) :
  exists k fs' t,
    for_each names (process_entry folder) fs = (k, fs', t) /\
    (k = Normal tt \/ exists e, k = Raise e) /\
    listed t = [] /\
    (exists rest, filter is_pdf_name names = processed t ++ rest) /\
    opened t = map (os_path_join folder) (processed t) /\
    (k = Normal tt -> processed t = filter is_pdf_name names) /\
    (filter is_pdf_name names = [] -> k = Normal tt /\ fs' = fs /\ t = []).
Proof.
  revert fs. induction names as [|f names IH]; intros fs.
  - do 3 eexists. split; [reflexivity|]. cbn.
    intuition eauto.
  - destruct (process_entry_summary folder f fs)
      as (k1 & fs1 & t1 & E1 & Hk1 & Hl1 & Hp1 & Ho1 & Hskip & _).
    cbn [for_each]. unfold bind at 1. rewrite E1.
    destruct Hk1 as [->|[e ->]].
    + destruct (IH fs1)
        as (k & fs' & t & E & Hk & Hl & [rest Hp] & Ho & Hall & Hnone).
      rewrite E. do 3 eexists. split; [reflexivity|].
      rewrite listed_app, processed_app, opened_app, Hl1, Hl, Hp1, Ho1, Ho.
      cbn [filter]. destruct (is_pdf_name f) eqn:Hpdf.
      * cbn. split; [assumption|]. split; [reflexivity|].
        split; [exists rest; now rewrite Hp|]. split; [reflexivity|].
        split; [intros Hn; now rewrite (Hall Hn)|]. discriminate.
      * destruct (Hskip eq_refl) as [-> ->]. cbn.
        split; [assumption|]. split; [reflexivity|].
        split; [exists rest; exact Hp|]. split; [reflexivity|].
        split; [assumption|]. exact Hnone.
    + do 3 eexists. split; [reflexivity|].
      rewrite Hl1, Hp1, Ho1.
      destruct (is_pdf_name f) eqn:Hpdf.
      * cbn [filter]. rewrite Hpdf. cbn.
        split; [right; eauto|]. split; [reflexivity|].
        split; [exists (filter is_pdf_name names); reflexivity|].
        split; [reflexivity|]. split; discriminate.
      * destruct (Hskip eq_refl) as [_ ->].
        rewrite process_entry_not_pdf in E1 by assumption. discriminate.
Qed.


End Properties.

(** ** The name test *)

Lemma substring_whole (s : string) : substring 0 (String.length s) s = s.
Proof. induction s as [|c s IH]; cbn; congruence. Qed.

Lemma substring_suffix (pre suf : string) :
  substring (String.length pre) (String.length suf) (pre ++ suf)%string = suf.
Proof. induction pre as [|c pre IH]; cbn; [apply substring_whole|exact IH]. Qed.

Lemma substring_split (s : string) (m : nat) :
  (m <= String.length s)%nat ->
  s = (substring 0 m s ++ substring m (String.length s - m) s)%string.
Proof.
  revert m. induction s as [|c s IH]; intros [|m] H; cbn in *;
    try reflexivity; try lia.
  - now rewrite substring_whole.
  - f_equal. apply IH. lia.
Qed.

Lemma length_append (a b : string) :
  String.length (a ++ b)%string = (String.length a + String.length b)%nat.
Proof. induction a as [|c a IH]; cbn; congruence. Qed.

Lemma endswith_iff (s suf : string) :
  endswith s suf = true <-> exists pre, s = (pre ++ suf)%string.
Proof.
  unfold endswith. rewrite andb_true_iff, Nat.leb_le, String.eqb_eq. split.
  - intros [Hle Hsub]. exists (substring 0 (String.length s - String.length suf) s).
    pose proof (substring_split s (String.length s - String.length suf)) as H.
    replace (String.length s - (String.length s - String.length suf))%nat
      with (String.length suf) in H by lia.
    rewrite Hsub in H. apply H. lia.
  - intros [pre ->]. rewrite length_append. split; [lia|].
    replace (String.length pre + String.length suf - String.length suf)%nat
      with (String.length pre) by lia.
    apply substring_suffix.
Qed.

Lemma lower_append (a b : string) :
  lower (a ++ b)%string = (lower a ++ lower b)%string.
Proof. induction a as [|c a IH]; cbn; congruence. Qed.

Lemma lower_split (s a b : string) :
  lower s = (a ++ b)%string ->
  exists s1 s2, s = (s1 ++ s2)%string /\ lower s1 = a /\ lower s2 = b.
Proof.
  revert s. induction a as [|c a IH]; intros s H.
  - exists ""%string, s. auto.
  - destruct s as [|c' s]; [discriminate|]. cbn in H.
    injection H as Hc H. destruct (IH _ H) as (s1 & s2 & -> & <- & <-).
    exists (String c' s1), s2. cbn. now rewrite Hc.
Qed.

Lemma ascii_lower_dot (c : ascii) : ascii_lower c = "."%char -> c = "."%char.
Proof.
  destruct c as [[] [] [] [] [] [] [] []]; vm_compute; intros H;
    try discriminate; reflexivity.
Qed.

Lemma ascii_lower_p (c : ascii) :
  ascii_lower c = "p"%char -> c = "p"%char \/ c = "P"%char.
Proof.
  destruct c as [[] [] [] [] [] [] [] []]; vm_compute; intros H;
    try discriminate; auto.
Qed.

Lemma ascii_lower_d (c : ascii) :
  ascii_lower c = "d"%char -> c = "d"%char \/ c = "D"%char.
Proof.
  destruct c as [[] [] [] [] [] [] [] []]; vm_compute; intros H;
    try discriminate; auto.
Qed.

Lemma ascii_lower_f (c : ascii) :
  ascii_lower c = "f"%char -> c = "f"%char \/ c = "F"%char.
Proof.
  destruct c as [[] [] [] [] [] [] [] []]; vm_compute; intros H;
    try discriminate; auto.
Qed.

(** The extensions that pass: [.pdf] in any mix of upper and lower case. *)
Lemma lower_pdf_variants (ext : string) :
  lower ext = ".pdf" <->
  In ext [".pdf"; ".pdF"; ".pDf"; ".pDF"; ".Pdf"; ".PdF"; ".PDf"; ".PDF"].
Proof.
  split.
  - destruct ext as [|c0 [|c1 [|c2 [|c3 [|c4 ext]]]]]; try discriminate.
    cbn [lower]. intros [= H0 H1 H2 H3].
    apply ascii_lower_dot in H0. apply ascii_lower_p in H1.
    apply ascii_lower_d in H2. apply ascii_lower_f in H3. subst c0.
    destruct H1 as [-> | ->], H2 as [-> | ->], H3 as [-> | ->]; cbn; tauto.
  - cbn. intros H. repeat destruct H as [<-|H]; try reflexivity. contradiction.
Qed.

Lemma is_pdf_name_iff (name : string) :
  is_pdf_name name = true <->
  exists stem ext, name = (stem ++ ext)%string /\ lower ext = ".pdf".
Proof.
  unfold is_pdf_name. rewrite endswith_iff. split.
  - intros [pre H]. apply lower_split in H.
    destruct H as (s1 & s2 & -> & _ & H). eauto.
  - intros (stem & ext & -> & H). exists (lower stem).
    now rewrite lower_append, H.
Qed.

(** ** From the rendered page to the outcome *)

Section Pipeline.

Context `{C : Collaborators}.

(** The decoders are reached with the cropped image, pyzbar first. *)
Lemma decode_stage_first_call (p : string) (iv : option image) (c : image)
    (k : ctl (option string) unit) (s : frame) (t : trace) :
  decode_stage p {| image_var := iv; cropped_image_var := Some c |} = (k, s, t) ->
  exists rest, decoder_calls t = inl c :: rest.
Proof.
  destruct (extract_qr_code_with_opencv_total c) as (r & t' & E & _).
  destruct (pyzbar_decode_QRCODE c) as [[|first others]|e] eqn:Hz.
  - rewrite (decode_stage_primary_none p _ _ _ _ Hz E).
    intros [= <- <- <-]. cbn. eauto.
  - rewrite (decode_stage_primary_found p _ _ _ _ Hz).
    intros [= <- <- <-]. cbn. eauto.
  - rewrite (decode_stage_primary_raised p _ _ _ Hz).
    intros [= <- <- <-]. cbn. eauto.
Qed.

Lemma extract_first_decoder_call (fs : filesystem) (p : string) (d : document)
    (raster i c : image) (t1 t2 : trace) :
  fitz_open fs p = Ok d ->
  page_raster fs p = Ok raster ->
  preprocess_image raster = (Ok i, t1) ->
  detect_and_crop_qr_code i = (Ok c, t2) ->
  exists rest,
    decoder_calls (snd (extract_qr_code_from_pdf fs p)) = inl c :: rest.
Proof.
  intros Hd Hr E1 E2.
  destruct (preprocess_image_total raster) as (i' & t1' & E1' & N1).
  rewrite E1 in E1'. injection E1' as <- <-.
  destruct (detect_and_crop_qr_code_total i) as (c' & t2' & E2' & N2).
  rewrite E2 in E2'. injection E2' as <- <-.
  apply notes_silent in N1. apply notes_silent in N2.
  destruct N1 as (_ & _ & _ & _ & _ & D1 & _), N2 as (_ & _ & _ & _ & _ & D2 & _).
  destruct (decode_stage p {| image_var := Some i; cropped_image_var := Some c |})
    as [[k s] t3] eqn:E3.
  rewrite (extract_rendered _ _ _ _ _ _ _ _ _ _ _ Hd Hr E1 E2 E3).
  destruct (decode_stage_first_call _ _ _ _ _ _ E3) as [rest Hrest].
  cbn [snd decoder_calls]. rewrite !decoder_calls_app, D1, D2, Hrest.
  cbn. eauto.
Qed.

(** A result without text ends in "not found", with the directory as it
    was and no call of [os.rename]. *)
Lemma process_entry_not_found (folder f : string) (fs : filesystem)
    (r : option string) :
  is_pdf_name f = true ->
  fst (extract_qr_code_from_pdf fs (os_path_join folder f)) = Ok r ->
  truthy_opt r = false ->
  exists t,
    process_entry folder f fs = (Normal tt, fs, t) /\
    outcomes t = [NotFound] /\ renames t = [].
Proof.
  intros Hpdf Hfst Hr.
  pose proof (extract_trace fs (os_path_join folder f)) as Ht.
  destruct (extract_qr_code_from_pdf fs (os_path_join folder f))
    as [r' t] eqn:E. cbn in Hfst, Ht. subst r'.
  destruct Ht as (Ho & Hn & _).
  rewrite (process_entry_no_payload _ _ _ _ _ Hpdf E Hr).
  eexists. split; [reflexivity|]. cbn.
  rewrite outcomes_app, renames_app, Ho, Hn. split; reflexivity.
Qed.

(** An exception in the decoders is printed and read as "no text". *)
Lemma extract_decoder_raised (fs : filesystem) (p : string) (d : document)
    (raster i c : image) (t1 t2 : trace) (e : exn) :
  fitz_open fs p = Ok d ->
  page_raster fs p = Ok raster ->
  preprocess_image raster = (Ok i, t1) ->
  detect_and_crop_qr_code i = (Ok c, t2) ->
  (pyzbar_decode_QRCODE c = Exc e \/
   exists first others,
     pyzbar_decode_QRCODE c = Ok (first :: others) /\
     bytes_decode_utf8 first = Exc e) ->
  exists t,
    extract_qr_code_from_pdf fs p = (Ok None, t) /\
    In (Stdout (Msg_error_processing p e)) t /\
    closed_images t = [i; c].
Proof.
  intros Hd Hr E1 E2 Hraise.
  destruct (preprocess_image_total raster) as (i' & t1' & E1' & N1).
  rewrite E1 in E1'. injection E1' as <- <-.
  destruct (detect_and_crop_qr_code_total i) as (c' & t2' & E2' & N2).
  rewrite E2 in E2'. injection E2' as <- <-.
  apply notes_silent in N1. apply notes_silent in N2.
  destruct N1 as (_ & _ & _ & _ & _ & _ & D1), N2 as (_ & _ & _ & _ & _ & _ & D2).
  assert (decode_stage p {| image_var := Some i; cropped_image_var := Some c |}
          = (Raise e, {| image_var := Some i; cropped_image_var := Some c |},
             [Call_pyzbar_decode c])) as E3.
  { destruct Hraise as [Hz|(first & others & Hz & Hu)].
    - apply decode_stage_primary_raised. exact Hz.
    - rewrite (decode_stage_primary_found p _ _ _ _ Hz), Hu. reflexivity. }
  rewrite (extract_rendered _ _ _ _ _ _ _ _ _ _ _ Hd Hr E1 E2 E3).
  eexists. split; [reflexivity|]. split.
  - cbn [In]. rewrite !in_app_iff. cbn [In]. rewrite !in_app_iff. cbn [In].
    intuition.
  - cbn [closed_images]. rewrite !closed_images_app, D1, D2. reflexivity.
Qed.

(** An entry that already carries the name of its payload is left alone. *)
Lemma process_entry_settled (folder f : string) (fs : filesystem) :
  is_pdf_name f = true ->
  correctly_named fs folder f = true ->
  exists t,
    process_entry folder f fs = (Normal tt, fs, t) /\
    outcomes t = [SkippedAlreadyCorrect] /\ renames t = [] /\ listed t = [].
Proof.
  intros Hpdf Hnamed. unfold correctly_named in Hnamed.
  pose proof (extract_trace fs (os_path_join folder f)) as Ht.
  destruct (extract_qr_code_from_pdf fs (os_path_join folder f))
    as [[[content|]|e] t] eqn:E; cbn in Hnamed, Ht; try discriminate.
  apply andb_true_iff in Hnamed. destruct Hnamed as [Hc Hsame].
  apply String.eqb_eq in Hsame. destruct Ht as (Ho & Hn & _ & Hl & _).
  rewrite (process_entry_already_correct _ _ _ _ _ Hpdf E Hc Hsame).
  eexists. split; [reflexivity|]. cbn.
  rewrite outcomes_app, renames_app, listed_app, Ho, Hn, Hl.
  repeat split.
Qed.

Lemma for_each_settled (folder : string) (names : list string)
    (fs : filesystem) :
  forallb (correctly_named fs folder) (filter is_pdf_name names) = true ->
  exists t,
    for_each names (process_entry folder) fs = (Normal tt, fs, t) /\
    renames t = [] /\ listed t = [] /\
    outcomes t =
      map (fun _ => SkippedAlreadyCorrect) (filter is_pdf_name names).
Proof.
  induction names as [|f names IH]; cbn [filter for_each].
  - intros _. exists []. repeat split.
  - destruct (is_pdf_name f) eqn:Hpdf.
    + cbn [forallb]. intros H. apply andb_true_iff in H. destruct H as [Hf H].
      destruct (process_entry_settled _ _ _ Hpdf Hf) as (t1 & E1 & Ho1 & Hn1 & Hl1).
      destruct (IH H) as (t & E & Hn & Hl & Ho).
      unfold bind. rewrite E1, E. eexists. split; [reflexivity|].
      rewrite renames_app, listed_app, outcomes_app, Hn1, Hn, Hl1, Hl, Ho1, Ho.
      repeat split.
    + intros H. destruct (IH H) as (t & E & Hn & Hl & Ho).
      unfold bind. rewrite (process_entry_not_pdf _ _ _ Hpdf), E.
      eexists. split; [reflexivity|]. cbn. auto.
Qed.

End Pipeline.

(** * The claims *)

Section Claims.

Context `{C : Collaborators}.

(** ** Region detector *)

(** C8.  For the four corner points the detector returns, the region is the
    axis-aligned box: the least and the greatest X and the least and the
    greatest Y, each taken on its own among the corners and cut to a whole
    pixel by [int]; on whole-pixel corners no cutting takes place; the
    corners (10,10), (50,10), (50,60), (10,60) give (10,10)-(50,60); and this
    box is the one [detect_and_crop_qr_code] prints and crops to. *)
Theorem bounding_box_axis_aligned :
  (forall p1 p2 p3 p4 : Q * Q,
     let xs := map fst [p1; p2; p3; p4] in
     let ys := map snd [p1; p2; p3; p4] in
     exists x_min y_min x_max y_max : Q,
       bounding_box [p1; p2; p3; p4] =
         Ok (py_int x_min, py_int y_min, py_int x_max, py_int y_max) /\
       (In x_min xs /\ forall x, In x xs -> (x_min <= x)%Q) /\
       (In y_min ys /\ forall y, In y ys -> (y_min <= y)%Q) /\
       (In x_max xs /\ forall x, In x xs -> (x <= x_max)%Q) /\
       (In y_max ys /\ forall y, In y ys -> (y <= y_max)%Q)) /\
  (forall a1 b1 a2 b2 a3 b3 a4 b4 : Z,
     bounding_box [(inject_Z a1, inject_Z b1); (inject_Z a2, inject_Z b2);
                   (inject_Z a3, inject_Z b3); (inject_Z a4, inject_Z b4)] =
       Ok (Z.min (Z.min (Z.min a1 a2) a3) a4,
           Z.min (Z.min (Z.min b1 b2) b3) b4,
           Z.max (Z.max (Z.max a1 a2) a3) a4,
           Z.max (Z.max (Z.max b1 b2) b3) b4)) /\
  bounding_box [(10 # 1, 10 # 1); (50 # 1, 10 # 1);
                (50 # 1, 60 # 1); (10 # 1, 60 # 1)] = Ok (10, 10, 50, 60) /\
  (forall (i src : image) (quad : list (Q * Q)) (others : list (list (Q * Q)))
          (x_min y_min x_max y_max : Z),
     rgb_image i = Ok src ->
     located src = Ok (Some (quad :: others)) ->
     bounding_box quad = Ok (x_min, y_min, x_max, y_max) ->
     detect_and_crop_qr_code i =
       match Image_crop src (x_min, y_min, x_max, y_max) with
       | Ok r => (Ok r, [Stdout (Msg_detected x_min y_min x_max y_max)])
       | Exc e => (Ok src, [Stdout (Msg_detected x_min y_min x_max y_max);
                            Stdout (Msg_detection_failed e)])
       end).
Proof.
  split; [|split; [|split]].
  - intros [x1 y1] [x2 y2] [x3 y3] [x4 y4]. cbn [map fst snd].
    exists (min_from x1 [x2; x3; x4]), (min_from y1 [y2; y3; y4]),
           (max_from x1 [x2; x3; x4]), (max_from y1 [y2; y3; y4]).
    split; [reflexivity|].
    repeat split;
      first [ apply (min_from_spec [_; _; _] _)
            | apply (max_from_spec [_; _; _] _) ].
  - intros. unfold bounding_box. cbn [map fst snd py_min py_max].
    pose proof (min_from_inject_Z [a2; a3; a4] a1) as Hx0.
    pose proof (min_from_inject_Z [b2; b3; b4] b1) as Hy0.
    pose proof (max_from_inject_Z [a2; a3; a4] a1) as Hx1.
    pose proof (max_from_inject_Z [b2; b3; b4] b1) as Hy1.
    cbn [map] in Hx0, Hy0, Hx1, Hy1. rewrite Hx0, Hy0, Hx1, Hy1.
    rewrite !py_int_inject_Z. reflexivity.
  - reflexivity.
  - intros i src quad others x_min y_min x_max y_max Hsrc Hloc Hbox.
    rewrite detect_and_crop_qr_code_cases, Hsrc, Hloc. cbn [getitem0].
    rewrite Hbox. reflexivity.
Qed.

(** ** Decoder chain *)

(** C4.  Once the first page is rendered and cropped to [c], pyzbar is
    called first, on [c].  When it finds symbols, the text of the first one
    is returned and OpenCV is not called.  OpenCV is called, on the same
    image, only when pyzbar found none; when it gives no text either, the
    result is [None].  An exception in either decoder, or in decoding the
    payload as UTF-8, ends in [None], not in an exception. *)
Theorem decoder_chain_two_stage (fs : filesystem) (p : string) (d : document)
    (raster i c : image) (t1 t2 : trace) :
  fitz_open fs p = Ok d ->
  page_raster fs p = Ok raster ->
  preprocess_image raster = (Ok i, t1) ->
  detect_and_crop_qr_code i = (Ok c, t2) ->
  let r := fst (extract_qr_code_from_pdf fs p) in
  let calls := decoder_calls (snd (extract_qr_code_from_pdf fs p)) in
  match pyzbar_decode_QRCODE c with
  | Ok (first :: _) =>
      calls = [inl c] /\
      r = match bytes_decode_utf8 first with
          | Ok text => Ok (Some text)
          | Exc _ => Ok None
          end
  | Ok [] =>
      match np_array c with
      | Ok arr =>
          calls = [inl c; inr arr] /\
          r = match QRCodeDetector_detectAndDecode arr with
              | Ok data => if truthy_str data then Ok (Some data) else Ok None
              | Exc _ => Ok None
              end
      | Exc _ => calls = [inl c] /\ r = Ok None
      end
  | Exc _ => calls = [inl c] /\ r = Ok None
  end.
Proof.
  intros Hd Hr E1 E2.
  destruct (preprocess_image_total raster) as (i' & t1' & E1' & N1).
  rewrite E1 in E1'. injection E1' as <- <-.
  destruct (detect_and_crop_qr_code_total i) as (c' & t2' & E2' & N2).
  rewrite E2 in E2'. injection E2' as <- <-.
  apply notes_silent in N1. apply notes_silent in N2.
  destruct N1 as (_ & _ & _ & _ & _ & D1 & _), N2 as (_ & _ & _ & _ & _ & D2 & _).
  destruct (pyzbar_decode_QRCODE c) as [[|first others]|e] eqn:Hz.
  - pose proof (extract_qr_code_with_opencv_cases c) as Eo.
    destruct (np_array c) as [arr|e].
    + destruct (QRCodeDetector_detectAndDecode arr) as [data|e].
      * rewrite (extract_rendered _ _ _ _ _ _ _ _ _ _ _ Hd Hr E1 E2
                   (decode_stage_primary_none p _ _ _ _ Hz Eo)).
        cbn [fst snd decoder_calls truthy_opt].
        rewrite !decoder_calls_app, D1, D2.
        destruct (truthy_str data); cbn; split; reflexivity.
      * rewrite (extract_rendered _ _ _ _ _ _ _ _ _ _ _ Hd Hr E1 E2
                   (decode_stage_primary_none p _ _ _ _ Hz Eo)).
        cbn [fst snd decoder_calls truthy_opt].
        rewrite !decoder_calls_app, D1, D2. cbn. split; reflexivity.
    + rewrite (extract_rendered _ _ _ _ _ _ _ _ _ _ _ Hd Hr E1 E2
                 (decode_stage_primary_none p _ _ _ _ Hz Eo)).
      cbn [fst snd decoder_calls truthy_opt].
      rewrite !decoder_calls_app, D1, D2. cbn. split; reflexivity.
  - rewrite (extract_rendered _ _ _ _ _ _ _ _ _ _ _ Hd Hr E1 E2
               (decode_stage_primary_found p _ _ _ _ Hz)).
    cbn [fst snd decoder_calls].
    rewrite !decoder_calls_app, D1, D2.
    destruct (bytes_decode_utf8 first); cbn; split; reflexivity.
  - rewrite (extract_rendered _ _ _ _ _ _ _ _ _ _ _ Hd Hr E1 E2
               (decode_stage_primary_raised p _ _ _ Hz)).
    cbn [fst snd decoder_calls].
    rewrite !decoder_calls_app, D1, D2. cbn. split; reflexivity.
Qed.


(** ** Graceful degradation of the detector *)

(** C7.  [detect_and_crop_qr_code] never raises.  When no quadrilateral is
    located, and when any step of the detection raises (the conversion, the
    search, [points[0]], the box arithmetic or the crop itself), it prints
    one of its two "not found" lines and gives the image back uncropped; the
    only other case is a located quadrilateral cropped with success.  The
    uncropped image is the one the decoders receive, pyzbar first; and when
    decoding then gives no text, the entry ends as not-found with the
    directory unchanged and no rename attempted. *)
Theorem detection_not_found_degrades :
  (forall i : image, exists r t, detect_and_crop_qr_code i = (Ok r, t)) /\
  (forall i : image, no_region i -> no_crop i) /\
  (forall i : image,
     no_crop i \/
     exists src quad others x_min y_min x_max y_max r,
       rgb_image i = Ok src /\
       located src = Ok (Some (quad :: others)) /\
       bounding_box quad = Ok (x_min, y_min, x_max, y_max) /\
       Image_crop src (x_min, y_min, x_max, y_max) = Ok r /\
       detect_and_crop_qr_code i
         = (Ok r, [Stdout (Msg_detected x_min y_min x_max y_max)])) /\
  (forall (i r : image) (t : trace),
     detect_and_crop_qr_code i = (Ok r, t) ->
     no_crop i \/ signals_not_found t ->
     signals_not_found t /\ uncropped i r) /\
  (forall (fs : filesystem) (folder f : string) (d : document)
          (raster i c : image) (t1 t2 : trace),
     is_pdf_name f = true ->
     fitz_open fs (os_path_join folder f) = Ok d ->
     page_raster fs (os_path_join folder f) = Ok raster ->
     preprocess_image raster = (Ok i, t1) ->
     detect_and_crop_qr_code i = (Ok c, t2) ->
     no_crop i ->
     uncropped i c /\
     (exists rest,
        decoder_calls (snd (extract_qr_code_from_pdf fs (os_path_join folder f)))
        = inl c :: rest) /\
     (forall r : option string,
        fst (extract_qr_code_from_pdf fs (os_path_join folder f)) = Ok r ->
        truthy_opt r = false ->
        exists t,
          process_entry folder f fs = (Normal tt, fs, t) /\
          outcomes t = [NotFound] /\ renames t = [])).
Proof.
  assert (forall (i r : image) (t : trace),
            detect_and_crop_qr_code i = (Ok r, t) ->
            no_crop i \/ signals_not_found t ->
            signals_not_found t /\ uncropped i r) as Hdegrade.
  { intros i r t. rewrite detect_and_crop_qr_code_cases.
    unfold no_crop, signals_not_found, uncropped, rgb_image.
    destruct (String.eqb (Image_mode i) "RGB");
      [|destruct (Image_convert i "RGB") as [src|e0] eqn:Hconv];
      repeat match goal with
             | |- context [match ?x with _ => _ end] => destruct x eqn:?
             end;
      intros [= <- <-] H; cbn in *;
      first
        [ split;
          [ first [ left; left; reflexivity
                  | right; eexists; left; reflexivity
                  | right; eexists; right; left; reflexivity ]
          | first [ left; reflexivity | right; reflexivity ] ]
        | exfalso;
          repeat match goal with
                 | H : _ \/ _ |- _ => destruct H
                 | H : exists _, _ |- _ => destruct H
                 | H : False |- _ => destruct H
                 end; congruence ]. }
  split; [|split; [|split; [|split; [exact Hdegrade|]]]].
  - intros i. destruct (detect_and_crop_qr_code_total i) as (r & t & E & _).
    eauto.
  - intros i. unfold no_region, no_crop.
    destruct (rgb_image i) as [src|e]; [|trivial].
    destruct (located src) as [[points|]|e]; [contradiction|trivial|trivial].
  - intros i. rewrite detect_and_crop_qr_code_cases. unfold no_crop.
    destruct (rgb_image i) as [src|e] eqn:Hsrc; [|now left].
    destruct (located src) as [[[|quad others]|]|e] eqn:Hloc;
      try (now left).
    cbn [getitem0].
    destruct (bounding_box quad) as [[[[x0 y0] x1] y1]|e] eqn:Hbox;
      [|now left].
    destruct (Image_crop src (x0, y0, x1, y1)) as [r|e] eqn:Hcrop;
      [|now left].
    right. exists src, quad, others, x0, y0, x1, y1, r.
    repeat split; first [assumption | reflexivity].
  - intros fs folder f d raster i c t1 t2 Hpdf Hd Hr E1 E2 Hno.
    split; [|split].
    + apply (Hdegrade i c t2 E2). now left.
    + eapply extract_first_decoder_call; eassumption.
    + intros r Hfst Hfalse. eapply process_entry_not_found; eassumption.
Qed.

(** ** Empty payload *)

(** C10.  When pyzbar reads a first symbol whose payload decodes to the
    empty string, the extraction returns that empty string, and the
    orchestrator treats it as no payload: the entry ends as not-found, the
    directory is unchanged and [os.rename] is not called. *)
Theorem empty_payload_is_not_found (fs : filesystem) (folder f : string)
    (d : document) (raster i c : image) (t1 t2 : trace)
    (first : bytes) (others : list bytes) :
  is_pdf_name f = true ->
  fitz_open fs (os_path_join folder f) = Ok d ->
  page_raster fs (os_path_join folder f) = Ok raster ->
  preprocess_image raster = (Ok i, t1) ->
  detect_and_crop_qr_code i = (Ok c, t2) ->
  pyzbar_decode_QRCODE c = Ok (first :: others) ->
  bytes_decode_utf8 first = Ok "" ->
  fst (extract_qr_code_from_pdf fs (os_path_join folder f)) = Ok (Some "") /\
  exists t,
    process_entry folder f fs = (Normal tt, fs, t) /\
    outcomes t = [NotFound] /\ renames t = [].
Proof.
  intros Hpdf Hd Hr E1 E2 Hz Hu.
  assert (fst (extract_qr_code_from_pdf fs (os_path_join folder f))
          = Ok (Some "")) as Hfst.
  { pose proof (decode_stage_primary_found (os_path_join folder f)
                  (Some i) c first others Hz) as E3.
    rewrite Hu in E3.
    rewrite (extract_rendered _ _ _ _ _ _ _ _ _ _ _ Hd Hr E1 E2 E3).
    reflexivity. }
  split; [exact Hfst|].
  eapply process_entry_not_found; [exact Hpdf|exact Hfst|reflexivity].
Qed.

(** ** Failed extraction *)

(** An error the extraction does contain.  When a decoder raises once the
    page is rendered, the extraction prints the error, closes its two images
    and returns [None], the value it also returns when nothing is decoded;
    the orchestrator then ends the entry as not-found, with the directory
    unchanged.  The outcome [Failed] is printed only after a call of
    [os.rename]. *)
Lemma decoder_error_reads_as_not_found :
  (forall (fs : filesystem) (folder f : string) (d : document)
          (raster i c : image) (t1 t2 : trace) (e : exn),
     is_pdf_name f = true ->
     fitz_open fs (os_path_join folder f) = Ok d ->
     page_raster fs (os_path_join folder f) = Ok raster ->
     preprocess_image raster = (Ok i, t1) ->
     detect_and_crop_qr_code i = (Ok c, t2) ->
     (pyzbar_decode_QRCODE c = Exc e \/
      exists first others,
        pyzbar_decode_QRCODE c = Ok (first :: others) /\
        bytes_decode_utf8 first = Exc e) ->
     (exists t,
        extract_qr_code_from_pdf fs (os_path_join folder f) = (Ok None, t) /\
        In (Stdout (Msg_error_processing (os_path_join folder f) e)) t /\
        closed_images t = [i; c]) /\
     (exists t,
        process_entry folder f fs = (Normal tt, fs, t) /\
        outcomes t = [NotFound] /\ renames t = [])) /\
  (forall (folder f : string) (fs fs' : filesystem)
          (k : ctl unit unit) (t : trace),
     process_entry folder f fs = (k, fs', t) ->
     In Failed (outcomes t) -> renames t <> []) /\
  NoDup [Renamed; SkippedAlreadyCorrect; SkippedConflict; Failed; NotFound].
Proof.
  split; [|split].
  - intros fs folder f d raster i c t1 t2 e Hpdf Hd Hr E1 E2 Hraise.
    destruct (extract_decoder_raised _ _ _ _ _ _ _ _ _ Hd Hr E1 E2 Hraise)
      as (t & E & Hin & Hclosed).
    split; [eauto|].
    eapply process_entry_not_found;
      [exact Hpdf|rewrite E; reflexivity|reflexivity].
  - intros folder f fs fs' k t E.
    destruct (process_entry_summary folder f fs)
      as (k0 & fs0 & t0 & E0 & _ & _ & _ & _ & _ & H).
    rewrite E in E0. injection E0 as <- <- <-. exact H.
  - repeat constructor; cbn; intuition discriminate.
Qed.


(** ** Idempotence *)

(** C5, as the code has it.  An entry whose target path, made absolute,
    equals its source path ends as skipped-already-correct: nothing is
    renamed and the directory is unchanged.  Hence a run over a directory in
    which every PDF entry already carries the name of its payload calls
    [os.rename] for none of them, ends each as skipped-already-correct and
    leaves the directory as it was. *)
Theorem already_correct_is_left_alone :
  (forall (fs : filesystem) (folder f content : string) (t : trace),
     is_pdf_name f = true ->
     extract_qr_code_from_pdf fs (os_path_join folder f)
       = (Ok (Some content), t) ->
     truthy_str content = true ->
     os_path_abspath (os_path_join folder f) =
       os_path_abspath (os_path_join folder (pdf_name content)) ->
     exists t',
       process_entry folder f fs = (Normal tt, fs, t') /\
       outcomes t' = [SkippedAlreadyCorrect] /\ renames t' = []) /\
  (forall (fs : filesystem) (folder : string) (names : list string),
     os_listdir fs folder = Ok names ->
     forallb (correctly_named fs folder) (filter is_pdf_name names) = true ->
     exists t,
       rename_pdfs_in_folder folder fs = (Ok tt, fs, t) /\
       renames t = [] /\
       outcomes t =
         map (fun _ => SkippedAlreadyCorrect) (filter is_pdf_name names)).
Proof.
  split.
  - intros fs folder f content t Hpdf E Hc Hsame.
    destruct (process_entry_settled folder f fs Hpdf) as (t' & E' & Ho & Hn & _).
    + unfold correctly_named. rewrite E. cbn [fst].
      rewrite Hc, Hsame, String.eqb_refl. reflexivity.
    + eauto.
  - intros fs folder names Hls Hall.
    destruct (for_each_settled _ _ _ Hall) as (t & E & Hn & _ & Ho).
    rewrite (rename_pdfs_in_folder_loop _ _ _ Hls), E.
    eexists. split; [reflexivity|]. cbn. auto.
Qed.

(** ** Scanning *)

(** What the scan keeps in every run.  The directory is listed once and
    only it is listed.  The entries
    whose processing starts are, in listing order, entries whose name ends
    in [.pdf] in any mix of case: a prefix of the listing filtered by that
    test, and the whole of it when the run ends without an exception.  Each
    is opened under the path of the folder joined with its name.  When no
    name passes the test, the run ends normally, renames nothing, calls no
    decoder, opens no file and leaves the directory as it was. *)
Lemma scan_selects_pdf_entries :
  (forall name : string,
     is_pdf_name name = true <->
     exists stem ext,
       name = (stem ++ ext)%string /\
       In ext [".pdf"; ".pdF"; ".pDf"; ".pDF";
               ".Pdf"; ".PdF"; ".PDf"; ".PDF"]) /\
  (forall (fs : filesystem) (folder : string) (names : list string),
     os_listdir fs folder = Ok names ->
     exists r fs' t,
       rename_pdfs_in_folder folder fs = (r, fs', t) /\
       listed t = [folder] /\
       (exists rest, filter is_pdf_name names = processed t ++ rest) /\
       (r = Ok tt -> processed t = filter is_pdf_name names) /\
       opened t = map (os_path_join folder) (processed t) /\
       (filter is_pdf_name names = [] ->
        r = Ok tt /\ fs' = fs /\ renames t = [] /\
        decoder_calls t = [] /\ opened t = [])).
Proof.
  split.
  - intros name. rewrite is_pdf_name_iff. split.
    + intros (stem & ext & -> & H). apply lower_pdf_variants in H. eauto.
    + intros (stem & ext & -> & H). apply lower_pdf_variants in H. eauto.
  - intros fs folder names Hls.
    destruct (for_each_entries folder names fs)
      as (k & fs' & t & E & Hk & Hl & Hpre & Ho & Hall & Hnone).
    rewrite (rename_pdfs_in_folder_loop _ _ _ Hls), E.
    do 3 eexists. split; [reflexivity|]. cbn. rewrite Hl.
    split; [reflexivity|]. split; [exact Hpre|]. split; [|split; [exact Ho|]].
    + destruct Hk as [->|[e ->]]; [auto|discriminate].
    + intros Hempty. destruct (Hnone Hempty) as (-> & -> & ->).
      repeat split.
Qed.

(** ** Collision *)

(** When [os.rename] refuses a taken target with [FileExistsError] (what
    Windows does), the entry ends as skipped-conflict and the directory is
    unchanged. *)
Lemma conflict_skipped_when_rename_refuses (fs : filesystem)
    (folder f content : string) (t : trace) :
  is_pdf_name f = true ->
  extract_qr_code_from_pdf fs (os_path_join folder f) = (Ok (Some content), t) ->
  truthy_str content = true ->
  os_path_abspath (os_path_join folder f) <>
    os_path_abspath (os_path_join folder (pdf_name content)) ->
  os_rename fs (os_path_join folder f) (os_path_join folder (pdf_name content))
    = Exc FileExistsError ->
  exists t',
    process_entry folder f fs = (Normal tt, fs, t') /\
    outcomes t' = [SkippedConflict].
Proof.
  intros Hpdf E Hc Hdiff Hren.
  rewrite (process_entry_rename _ _ _ _ _ Hpdf E Hc Hdiff). cbn.
  rewrite Hren. eexists. split; [reflexivity|]. cbn.
  pose proof (extract_trace fs (os_path_join folder f)) as Ht.
  rewrite E in Ht. cbn in Ht. destruct Ht as (Ho & _).
  rewrite outcomes_app, Ho. reflexivity.
Qed.

End Claims.

(** * Runs on the simulated host *)

(** The Windows host refuses every taken target. *)
Lemma sim_windows_rename_refuses (fs : Sim.files) (src dst : string) :
  Sim.lookup src fs <> None ->
  src <> dst ->
  os_path_exists (Collaborators := Sim.windows) fs dst = true ->
  os_rename (Collaborators := Sim.windows) fs src dst = Exc FileExistsError.
Proof.
  cbn. unfold Sim.rename. intros Hsrc Hdiff Hdst.
  destruct (Sim.lookup src fs); [|contradiction].
  apply String.eqb_neq in Hdiff. rewrite Hdiff.
  destruct (Sim.lookup dst fs); [reflexivity|discriminate].
Qed.

(** A scan whose first page carries [INV-2024-001] takes that name. *)
Example scan_renamed_to_payload :
  exists t,
    rename_pdfs_in_folder (C := Sim.posix) "/d" Sim.framed_dir
      = (Ok tt,
         [("/d/INV-2024-001.pdf", Sim.File (Sim.Pdf Sim.framed_page))], t) /\
    outcomes t = [Renamed] /\
    closed_images t =
      [Sim.binarized Sim.framed_page;
       {| Sim.shown := Sim.framed_page; Sim.mode := "RGB";
          Sim.cropped_to := Some (10, 10, 50, 60) |}].
Proof. eexists. split; [vm_compute; reflexivity|]. split; reflexivity. Qed.

(** On Windows the collision of [A.pdf] with [X.pdf] is skipped. *)
Example collision_skipped_on_windows :
  exists t,
    process_entry (C := Sim.windows) "C:\docs" "A.pdf" Sim.collision_dir_windows
      = (Normal tt, Sim.collision_dir_windows, t) /\
    outcomes t = [SkippedConflict].
Proof.
  eapply (conflict_skipped_when_rename_refuses (C := Sim.windows));
    try reflexivity.
  - cbn. discriminate.
Qed.

(** C1, on a Unix host.  [A.pdf] carries the payload [X] and [X.pdf]
    exists with another content.  Processing [A.pdf] calls [os.rename], which
    replaces the target: the entry ends as renamed, [A.pdf] is gone and
    [X.pdf] now holds what [A.pdf] held. *)
Theorem collision_overwrites_on_posix :
  Sim.lookup "/d/X.pdf" Sim.collision_dir
    = Some (Sim.File (Sim.Pdf (Sim.page_with "Y"))) /\
  exists t,
    process_entry (C := Sim.posix) "/d" "A.pdf" Sim.collision_dir
      = (Normal tt,
         [("/d/X.pdf", Sim.File (Sim.Pdf (Sim.page_with "X")))], t) /\
    outcomes t = [Renamed] /\
    renames t = [("/d/A.pdf", "/d/X.pdf")].
Proof.
  split; [reflexivity|].
  eexists. split; [vm_compute; reflexivity|]. split; reflexivity.
Qed.

(** C2, at a file that cannot be opened.  [bad.pdf] is listed before
    [good.pdf].  The exception raised by the [finally] block of the
    extraction leaves [main]: the exit status is 1, and [good.pdf] is never
    processed. *)
Theorem batch_aborts_on_unopenable_file :
  exists t,
    main (C := Sim.posix) "/d" Sim.batch_dir
      = (Exc (UnboundLocalError "image"), Sim.batch_dir, t) /\
    exit_status (fst (fst (main (C := Sim.posix) "/d" Sim.batch_dir))) = 1 /\
    Sim.listdir Sim.Posix Sim.batch_dir "/d" = ["bad.pdf"; "good.pdf"] /\
    processed t = ["bad.pdf"] /\
    opened t = ["/d/bad.pdf"] /\
    outcomes t = [].
Proof.
  eexists. split; [vm_compute; reflexivity|]. repeat split.
Qed.

(** C3, before a page is rendered.  For a document without pages the
    document is closed, the error is printed, and then the release step
    raises [UnboundLocalError] on the name [image]; for a file that cannot be
    opened the same happens without a document to close.  No image is
    closed in either run. *)
Theorem release_raises_without_raster :
  extract_qr_code_from_pdf (C := Sim.posix) Sim.empty_doc_dir "/d/empty.pdf"
    = (Exc (UnboundLocalError "image"),
       [Call_fitz_open "/d/empty.pdf";
        Call_document_close (C := Sim.posix) Sim.NoPages;
        Stdout (Msg_error_processing "/d/empty.pdf" IndexError)]) /\
  extract_qr_code_from_pdf (C := Sim.posix) Sim.batch_dir "/d/bad.pdf"
    = (Exc (UnboundLocalError "image"),
       [Call_fitz_open "/d/bad.pdf";
        Stdout (Msg_error_processing "/d/bad.pdf"
                 (LibraryError "FileDataError"))]).
Proof. split; reflexivity. Qed.

(** C6, at runs that are cut short.  [bad.pdf] and [good.pdf] both pass the
    name test, but only [bad.pdf] is processed: the exception raised by the
    release step of its extraction ends the loop before [good.pdf].  A
    subdirectory whose name ends in [.pdf] is not ignored: it is handed to
    [fitz.open], and the run ends the same way before [good.pdf]. *)
Theorem pdf_entry_left_unprocessed :
  (exists fs' t,
     rename_pdfs_in_folder (C := Sim.posix) "/d" Sim.batch_dir
       = (Exc (UnboundLocalError "image"), fs', t) /\
     filter is_pdf_name (Sim.listdir Sim.Posix Sim.batch_dir "/d")
       = ["bad.pdf"; "good.pdf"] /\
     processed t = ["bad.pdf"] /\
     ~ In "good.pdf"%string (processed t)) /\
  (exists fs' t,
     rename_pdfs_in_folder (C := Sim.posix) "/d" Sim.archive_dir
       = (Exc (UnboundLocalError "image"), fs', t) /\
     Sim.lookup "/d/archive.pdf" Sim.archive_dir = Some Sim.Directory /\
     filter is_pdf_name (Sim.listdir Sim.Posix Sim.archive_dir "/d")
       = ["archive.pdf"; "good.pdf"] /\
     processed t = ["archive.pdf"] /\
     opened t = ["/d/archive.pdf"]).
Proof.
  split.
  - do 2 eexists. split; [vm_compute; reflexivity|].
    split; [reflexivity|]. split; [reflexivity|].
    cbn. intros [H|[]]. discriminate.
  - do 2 eexists. split; [vm_compute; reflexivity|].
    repeat split.
Qed.

(** C9, at the claim's own inputs.  For a file that cannot be opened and
    for a document without pages, the extraction prints the error and then
    raises [UnboundLocalError] from its release step: processing the entry
    ends in that exception and no outcome is printed for the file, neither
    failed nor any other. *)
Theorem unopenable_file_records_no_outcome :
  (exists t,
     process_entry (C := Sim.posix) "/d" "bad.pdf" Sim.batch_dir
       = (Raise (UnboundLocalError "image"), Sim.batch_dir, t) /\
     In (Stdout (Msg_error_processing "/d/bad.pdf"
                   (LibraryError "FileDataError"))) t /\
     outcomes t = [] /\ ~ In Failed (outcomes t)) /\
  (exists t,
     process_entry (C := Sim.posix) "/d" "empty.pdf" Sim.empty_doc_dir
       = (Raise (UnboundLocalError "image"), Sim.empty_doc_dir, t) /\
     In (Stdout (Msg_error_processing "/d/empty.pdf" IndexError)) t /\
     outcomes t = [] /\ ~ In Failed (outcomes t)).
Proof.
  split.
  - eexists. split; [vm_compute; reflexivity|].
    split; [cbn; tauto|]. split; [reflexivity|]. intros [].
  - eexists. split; [vm_compute; reflexivity|].
    split; [cbn; tauto|]. split; [reflexivity|]. intros [].
Qed.

(** C5, refuted as stated: on Windows, the first run skips [A.pdf] because
    [X.pdf] exists and then renames [X.pdf] to [Y.pdf]; the second run finds
    the name [X.pdf] free and renames [A.pdf]. *)
Lemma second_run_renames :
  let '(_, fs1, t1) :=
    rename_pdfs_in_folder (C := Sim.windows) "C:\docs" Sim.collision_dir_windows in
  let '(_, _, t2) := rename_pdfs_in_folder (C := Sim.windows) "C:\docs" fs1 in
  outcomes t1 = [SkippedConflict; Renamed] /\
  renames t2 = [("C:\docs\A.pdf", "C:\docs\X.pdf")] /\
  outcomes t2 = [Renamed; SkippedAlreadyCorrect] /\
  renames t2 <> [].
Proof. vm_compute. repeat split. discriminate. Qed.

(** pyzbar raises on the rendered page of [scan.pdf]: the extraction prints
    the error, and the outcome printed for the file is not-found. *)
Example decoder_crash_is_recorded_as_not_found :
  let '(_, fs', t) :=
    process_entry (C := Sim.posix) "/d" "scan.pdf" Sim.crash_dir in
  In (Stdout (Msg_error_processing "/d/scan.pdf" (LibraryError "zbar"))) t /\
  outcomes t = [NotFound] /\
  ~ In Failed (outcomes t) /\
  fs' = Sim.crash_dir.
Proof.
  vm_compute. repeat split.
  - do 5 right. left. reflexivity.
  - intros [H|[]]. discriminate.
Qed.

(** ** Instances of the general theorems *)

Lemma bounding_box_axis_aligned_witness :
  detect_and_crop_qr_code (C := Sim.posix) (Sim.binarized Sim.framed_page)
    = (Ok {| Sim.shown := Sim.framed_page; Sim.mode := "RGB";
             Sim.cropped_to := Some (10, 10, 50, 60) |},
       [Stdout (Msg_detected 10 10 50 60)]).
Proof.
  exact (proj2 (proj2 (proj2 (bounding_box_axis_aligned (C := Sim.posix))))
           (Sim.binarized Sim.framed_page) _ _ _ 10 10 50 60
           eq_refl eq_refl eq_refl).
Defined.

Lemma decoder_chain_two_stage_witness :
  decoder_calls
    (snd (extract_qr_code_from_pdf (C := Sim.posix) Sim.collision_dir "/d/A.pdf"))
    = [inl (Sim.full_raster (Sim.page_with "X"))] /\
  fst (extract_qr_code_from_pdf (C := Sim.posix) Sim.collision_dir "/d/A.pdf")
    = Ok (Some "X").
Proof.
  exact (decoder_chain_two_stage (C := Sim.posix) Sim.collision_dir "/d/A.pdf"
           _ _ _ _ _ _ eq_refl eq_refl eq_refl eq_refl).
Defined.

Lemma detection_not_found_degrades_witness :
  uncropped (C := Sim.posix) (Sim.binarized Sim.empty_corners_page)
    (Sim.full_raster Sim.empty_corners_page) /\
  (exists rest,
     decoder_calls
       (snd (extract_qr_code_from_pdf (C := Sim.posix) Sim.empty_corners_dir
               "/d/scan.pdf"))
     = inl (Sim.full_raster Sim.empty_corners_page) :: rest) /\
  exists t,
    process_entry (C := Sim.posix) "/d" "scan.pdf" Sim.empty_corners_dir
      = (Normal tt, Sim.empty_corners_dir, t) /\
    outcomes t = [NotFound] /\ renames t = [].
Proof.
  destruct (proj2 (proj2 (proj2 (proj2
              (detection_not_found_degrades (C := Sim.posix)))))
              Sim.empty_corners_dir "/d" "scan.pdf" _ _ _ _ _ _
              eq_refl eq_refl eq_refl eq_refl eq_refl I) as (Hu & Hc & H).
  split; [exact Hu|]. split; [exact Hc|].
  exact (H None eq_refl eq_refl).
Defined.

Lemma empty_payload_is_not_found_witness :
  fst (extract_qr_code_from_pdf (C := Sim.posix) Sim.empty_payload_dir
         "/d/scan.pdf") = Ok (Some "") /\
  exists t,
    process_entry (C := Sim.posix) "/d" "scan.pdf" Sim.empty_payload_dir
      = (Normal tt, Sim.empty_payload_dir, t) /\
    outcomes t = [NotFound] /\ renames t = [].
Proof.
  exact (empty_payload_is_not_found (C := Sim.posix) Sim.empty_payload_dir
           "/d" "scan.pdf" _ _ _ _ _ _ _ _
           eq_refl eq_refl eq_refl eq_refl eq_refl eq_refl eq_refl).
Defined.

Lemma decoder_error_reads_as_not_found_witness :
  exists t,
    process_entry (C := Sim.posix) "/d" "scan.pdf" Sim.crash_dir
      = (Normal tt, Sim.crash_dir, t) /\
    outcomes t = [NotFound] /\ renames t = [].
Proof.
  exact (proj2 (proj1 (decoder_error_reads_as_not_found (C := Sim.posix))
                  Sim.crash_dir "/d" "scan.pdf" _ _ _ _ _ _
                  (LibraryError "zbar")
                  eq_refl eq_refl eq_refl eq_refl eq_refl
                  (or_introl eq_refl))).
Defined.

Lemma already_correct_is_left_alone_witness :
  exists t,
    rename_pdfs_in_folder (C := Sim.posix) "/d" Sim.settled_dir
      = (Ok tt, Sim.settled_dir, t) /\
    renames t = [] /\
    outcomes t = [SkippedAlreadyCorrect; SkippedAlreadyCorrect].
Proof.
  exact (proj2 (already_correct_is_left_alone (C := Sim.posix))
           Sim.settled_dir "/d" _ eq_refl eq_refl).
Defined.

Lemma scan_selects_pdf_entries_witness :
  exists r fs' t,
    rename_pdfs_in_folder (C := Sim.posix) "/d" Sim.no_pdf_dir = (r, fs', t) /\
    r = Ok tt /\ fs' = Sim.no_pdf_dir /\ renames t = [] /\
    decoder_calls t = [] /\ opened t = [].
Proof.
  destruct (proj2 (scan_selects_pdf_entries (C := Sim.posix))
              Sim.no_pdf_dir "/d" _ eq_refl)
    as (r & fs' & t & E & _ & _ & _ & _ & H).
  exists r, fs', t. split; [exact E|]. exact (H eq_refl).
Defined.

(** * Further properties of the script *)

Section More.

Context `{C : Collaborators}.

Lemma closed_documents_app (t1 t2 : trace) :
  closed_documents (t1 ++ t2) = closed_documents t1 ++ closed_documents t2.
Proof.
  induction t1 as [|ev t1 IH]; [reflexivity|].
  destruct ev; cbn; congruence.
Qed.

Lemma notes_close_no_document (t : trace) :
  Forall is_note t -> closed_documents t = [].
Proof.
  induction 1 as [|ev t Hev _ IH]; [reflexivity|].
  destruct ev; try contradiction. exact IH.
Qed.

(** What the decoders leave in the trace. *)
Lemma decode_stage_calls (p : string) (iv : option image) (c : image)
    (k : ctl (option string) unit) (s : frame) (t : trace) :
  decode_stage p {| image_var := iv; cropped_image_var := Some c |} = (k, s, t) ->
  closed_documents t = [] /\
  (decoder_calls t = [inl c] \/
   exists arr, np_array c = Ok arr /\ decoder_calls t = [inl c; inr arr]).
Proof.
  pose proof (extract_qr_code_with_opencv_cases c) as Eo.
  destruct (pyzbar_decode_QRCODE c) as [[|first others]|e] eqn:Hz.
  - destruct (np_array c) as [arr|e0].
    + destruct (QRCodeDetector_detectAndDecode arr) as [data|e0];
        rewrite (decode_stage_primary_none p _ _ _ _ Hz Eo);
        intros [= <- <- <-]; cbn; eauto.
    + rewrite (decode_stage_primary_none p _ _ _ _ Hz Eo).
      intros [= <- <- <-]. cbn. auto.
  - rewrite (decode_stage_primary_found p _ _ _ _ Hz).
    intros [= <- <- <-]. cbn. auto.
  - rewrite (decode_stage_primary_raised p _ _ _ Hz).
    intros [= <- <- <-]. cbn. auto.
Qed.

(** The extraction raises only from its release step. *)
Lemma extract_raise_unbound (fs : filesystem) (p : string) (e : exn) :
  fst (extract_qr_code_from_pdf fs p) = Exc e ->
  e = UnboundLocalError "image" /\ exists e0, page_raster fs p = Exc e0.
Proof.
  destruct (page_raster fs p) as [raster|e0] eqn:Hr.
  - assert (exists d, fitz_open fs p = Ok d) as [d Hd].
    { unfold page_raster in Hr. destruct (fitz_open fs p); [eauto|discriminate]. }
    destruct (preprocess_image_total raster) as (i & t1 & E1 & _).
    destruct (detect_and_crop_qr_code_total i) as (c & t2 & E2 & _).
    destruct (decode_stage p {| image_var := Some i; cropped_image_var := Some c |})
      as [[k s] t3] eqn:E3.
    rewrite (extract_rendered _ _ _ _ _ _ _ _ _ _ _ Hd Hr E1 E2 E3).
    destruct k; discriminate.
  - destruct (extract_unrendered _ _ _ Hr) as (t & E & _).
    rewrite E. cbn. intros [= <-]. eauto.
Qed.

(** ** The image helpers *)

(** X1.  [preprocess_image] never raises.  When one of its four library
    calls raises, it prints one line and returns the very image it was
    given; otherwise it returns the binarized image and prints nothing.  The
    threshold is asked with 128, 255 and the flags
    [THRESH_BINARY | THRESH_OTSU], that is 8. *)
Theorem preprocess_image_degrades (i : image) :
  match np_array i with
  | Exc e => preprocess_image i = (Ok i, [Stdout (Msg_preprocessing_failed e)])
  | Ok arr =>
      match cv2_cvtColor_RGB2GRAY arr with
      | Exc e =>
          preprocess_image i = (Ok i, [Stdout (Msg_preprocessing_failed e)])
      | Ok gray =>
          match cv2_threshold gray 128 255 8 with
          | Exc e =>
              preprocess_image i
                = (Ok i, [Stdout (Msg_preprocessing_failed e)])
          | Ok binary =>
              match Image_fromarray binary with
              | Exc e =>
                  preprocess_image i
                    = (Ok i, [Stdout (Msg_preprocessing_failed e)])
              | Ok binarized => preprocess_image i = (Ok binarized, [])
              end
          end
      end
  end.
Proof.
  unfold preprocess_image. py_unfold.
  change (Z.lor cv2_THRESH_BINARY cv2_THRESH_OTSU) with 8.
  destruct (np_array i) as [arr|]; cbn; [|reflexivity].
  destruct (cv2_cvtColor_RGB2GRAY arr) as [gray|]; cbn; [|reflexivity].
  destruct (cv2_threshold gray 128 255 8) as [binary|]; cbn; [|reflexivity].
  destruct (Image_fromarray binary); reflexivity.
Qed.

(** X2.  [extract_qr_code_with_opencv] never raises and calls the detector
    at most once.  It returns [None] exactly when a library call raised; a
    decode that found nothing comes back as the empty string, not as
    [None]. *)
Theorem opencv_decode_result (i : image) :
  exists r t,
    extract_qr_code_with_opencv i = (Ok r, t) /\
    (length (decoder_calls t) <= 1)%nat /\
    (r = None <->
     (exists e, np_array i = Exc e) \/
     (exists arr e, np_array i = Ok arr /\
                    QRCodeDetector_detectAndDecode arr = Exc e)) /\
    (forall data, r = Some data <->
       exists arr, np_array i = Ok arr /\
                   QRCodeDetector_detectAndDecode arr = Ok data).
Proof.
  rewrite extract_qr_code_with_opencv_cases.
  destruct (np_array i) as [arr|e].
  - destruct (QRCodeDetector_detectAndDecode arr) as [data|e] eqn:Hd.
    + do 2 eexists. split; [reflexivity|]. cbn. split; [lia|]. split.
      * split; [discriminate|].
        intros [[e He]|(arr' & e & [= <-] & He)]; congruence.
      * intros data'. split.
        -- intros [= <-]. eauto.
        -- intros (arr' & [= <-] & He). congruence.
    + do 2 eexists. split; [reflexivity|]. cbn. split; [lia|]. split.
      * split; [eauto|reflexivity].
      * intros data'. split; [discriminate|].
        intros (arr' & [= <-] & He). congruence.
  - do 2 eexists. split; [reflexivity|]. cbn. split; [lia|]. split.
    + split; [eauto|reflexivity].
    + intros data'. split; [discriminate|].
      intros (arr' & He & _). discriminate.
Qed.

(** X3.  Whatever is detected, the image [detect_and_crop_qr_code] returns
    is the image it was given, uncropped, or the crop of that image, taken
    in RGB, to the box around the first quadrilateral located; it prints at
    most two lines. *)
Theorem detect_and_crop_result (i r : image) (t : trace) :
  detect_and_crop_qr_code i = (Ok r, t) ->
  (length t <= 2)%nat /\
  (uncropped i r \/
   exists src quad others b,
     rgb_image i = Ok src /\
     located src = Ok (Some (quad :: others)) /\
     bounding_box quad = Ok b /\
     Image_crop src b = Ok r).
Proof.
  rewrite detect_and_crop_qr_code_cases.
  assert (forall src, rgb_image i = Ok src -> uncropped i src) as Hun.
  { unfold rgb_image, uncropped. intros src.
    destruct (String.eqb (Image_mode i) "RGB"); [intros [= ->]|]; auto. }
  destruct (rgb_image i) as [src|e] eqn:Hsrc.
  2:{ intros [= <- <-]. split; [cbn; lia|]. left. now left. }
  specialize (Hun src eq_refl).
  destruct (located src) as [[points|]|e] eqn:Hloc;
    try (intros [= <- <-]; split; [cbn; lia|]; now left).
  destruct points as [|quad others]; cbn [getitem0];
    try (intros [= <- <-]; split; [cbn; lia|]; now left).
  destruct (bounding_box quad) as [[[[x0 y0] x1] y1]|e] eqn:Hbox;
    try (intros [= <- <-]; split; [cbn; lia|]; now left).
  destruct (Image_crop src (x0, y0, x1, y1)) as [r'|e] eqn:Hcrop;
    intros [= <- <-]; (split; [cbn; lia|]).
  - right. exists src, quad, others, (x0, y0, x1, y1). auto.
  - now left.
Qed.

(** ** The box, for any number of points *)

Lemma py_int_le (a b : Q) : (a <= b)%Q -> py_int a <= py_int b.
Proof.
  unfold Qle, py_int. intros H.
  rewrite <- (Z.quot_mul_cancel_r (Qnum a) (Zpos (Qden a)) (Zpos (Qden b)))
    by discriminate.
  rewrite <- (Z.quot_mul_cancel_r (Qnum b) (Zpos (Qden b)) (Zpos (Qden a)))
    by discriminate.
  rewrite (Z.mul_comm (Zpos (Qden b)) (Zpos (Qden a))).
  apply Z.quot_le_mono; [lia|exact H].
Qed.

(** X4.  Without any point the box cannot be computed: [min] raises
    [ValueError].  For one point or more it is computed, it is not inverted
    (left is at most right, upper at most lower), and every point, cut to
    whole pixels, lies in it. *)
Theorem bounding_box_encloses :
  bounding_box [] = Exc ValueError /\
  (forall (p : Q * Q) (pts : list (Q * Q)),
     exists x_min y_min x_max y_max : Z,
       bounding_box (p :: pts) = Ok (x_min, y_min, x_max, y_max) /\
       x_min <= x_max /\ y_min <= y_max /\
       forall q, In q (p :: pts) ->
         x_min <= py_int (fst q) <= x_max /\
         y_min <= py_int (snd q) <= y_max).
Proof.
  split; [reflexivity|]. intros p pts.
  destruct (min_from_spec (map fst pts) (fst p)) as [_ Hx0].
  destruct (min_from_spec (map snd pts) (snd p)) as [_ Hy0].
  destruct (max_from_spec (map fst pts) (fst p)) as [_ Hx1].
  destruct (max_from_spec (map snd pts) (snd p)) as [_ Hy1].
  assert (forall q, In q (p :: pts) ->
            py_int (min_from (fst p) (map fst pts)) <= py_int (fst q)
              <= py_int (max_from (fst p) (map fst pts)) /\
            py_int (min_from (snd p) (map snd pts)) <= py_int (snd q)
              <= py_int (max_from (snd p) (map snd pts))) as Hin.
  { intros q Hq.
    assert (In (fst q) (fst p :: map fst pts)) as Hqx
      by (change (In (fst q) (map fst (p :: pts))); now apply in_map).
    assert (In (snd q) (snd p :: map snd pts)) as Hqy
      by (change (In (snd q) (map snd (p :: pts))); now apply in_map).
    repeat split; apply py_int_le; auto. }
  exists (py_int (min_from (fst p) (map fst pts))),
         (py_int (min_from (snd p) (map snd pts))),
         (py_int (max_from (fst p) (map fst pts))),
         (py_int (max_from (snd p) (map snd pts))).
  split; [reflexivity|].
  destruct (Hin p (or_introl eq_refl)) as [[? ?] [? ?]].
  split; [lia|]. split; [lia|]. exact Hin.
Qed.

(** ** Extraction *)

(** X5.  [extract_qr_code_from_pdf] raises exactly when the first page
    cannot be rendered to a raster (the open, the page access, the rendering
    or the conversion raises), and what it raises then is always the
    [UnboundLocalError] of its release step, not the library's exception. *)
Theorem extraction_raises_iff_unrendered (fs : filesystem) (p : string) :
  ((exists e, fst (extract_qr_code_from_pdf fs p) = Exc e) <->
   (exists e0, page_raster fs p = Exc e0)) /\
  (forall e, fst (extract_qr_code_from_pdf fs p) = Exc e ->
             e = UnboundLocalError "image").
Proof.
  split; [split|].
  - intros [e He]. exact (proj2 (extract_raise_unbound _ _ _ He)).
  - intros [e0 He0].
    destruct (extract_unrendered _ _ _ He0) as (t & E & _).
    rewrite E. cbn. eauto.
  - intros e He. exact (proj1 (extract_raise_unbound _ _ _ He)).
Qed.

(** X6.  Once the first page is rendered, however the decoding ends (a
    text, nothing, or an exception), the function returns, the document is
    closed exactly once, and the run ends with the two [close] calls of the
    release step: first the image that preprocessing returned, then the
    cropped image.  No other image is closed. *)
Theorem rendered_page_is_released (fs : filesystem) (p : string)
    (d : document) (raster i c : image) (t1 t2 : trace) :
  fitz_open fs p = Ok d ->
  page_raster fs p = Ok raster ->
  preprocess_image raster = (Ok i, t1) ->
  detect_and_crop_qr_code i = (Ok c, t2) ->
  let t := snd (extract_qr_code_from_pdf fs p) in
  (exists r, fst (extract_qr_code_from_pdf fs p) = Ok r) /\
  closed_documents t = [d] /\
  closed_images t = [i; c] /\
  exists before, t = before ++ [Call_Image_close i; Call_Image_close c].
Proof.
  intros Hd Hr E1 E2.
  destruct (preprocess_image_total raster) as (i' & t1' & E1' & N1).
  rewrite E1 in E1'. injection E1' as <- <-.
  destruct (detect_and_crop_qr_code_total i) as (c' & t2' & E2' & N2).
  rewrite E2 in E2'. injection E2' as <- <-.
  pose proof (notes_close_no_document _ N1) as D1.
  pose proof (notes_close_no_document _ N2) as D2.
  apply notes_silent in N1. apply notes_silent in N2.
  destruct N1 as (_ & _ & _ & _ & _ & _ & I1), N2 as (_ & _ & _ & _ & _ & _ & I2).
  destruct (decode_stage p {| image_var := Some i; cropped_image_var := Some c |})
    as [[k s] t3] eqn:E3.
  pose proof (decode_stage_calls _ _ _ _ _ _ E3) as [D3 _].
  pose proof (decode_stage_trace _ _ _ _ _ E3) as (_ & _ & _ & _ & _ & I3).
  rewrite (extract_rendered _ _ _ _ _ _ _ _ _ _ _ Hd Hr E1 E2 E3).
  cbn [fst snd]. split; [destruct k; eauto|].
  split; [|split].
  - cbn [closed_documents]. rewrite !closed_documents_app, D1, D2, D3. cbn.
    rewrite closed_documents_app. destruct k; reflexivity.
  - cbn [closed_images]. rewrite !closed_images_app, I1, I2, I3. cbn.
    rewrite closed_images_app. destruct k; reflexivity.
  - exists (Call_fitz_open p :: t1 ++ t2 ++ t3 ++ Call_document_close d ::
              match k with
              | Raise e => [Stdout (Msg_error_processing p e)]
              | _ => []
              end).
    cbn. rewrite <- !app_assoc. cbn. reflexivity.
Qed.

(** X7.  One extraction opens the path it is given and nothing else, and
    never lists a directory or calls [os.rename].  It calls pyzbar at most
    once and OpenCV's decoder at most once, pyzbar first; when the page
    cannot be rendered it calls no decoder and closes no image. *)
Theorem extraction_footprint (fs : filesystem) (p : string) :
  let t := snd (extract_qr_code_from_pdf fs p) in
  opened t = [p] /\ listed t = [] /\ renames t = [] /\
  (decoder_calls t = [] \/
   exists c, decoder_calls t = [inl c] \/
             exists arr, decoder_calls t = [inl c; inr arr]) /\
  ((exists e0, page_raster fs p = Exc e0) ->
   decoder_calls t = [] /\ closed_images t = []).
Proof.
  pose proof (extract_trace fs p) as (_ & Hn & _ & Hl & Ho).
  cbn zeta. split; [exact Ho|]. split; [exact Hl|]. split; [exact Hn|].
  destruct (page_raster fs p) as [raster|e0] eqn:Hr.
  - split; [|intros [e0 He0]; discriminate].
    assert (exists d, fitz_open fs p = Ok d) as [d Hd].
    { unfold page_raster in Hr. destruct (fitz_open fs p); [eauto|discriminate]. }
    destruct (preprocess_image_total raster) as (i & t1 & E1 & N1).
    destruct (detect_and_crop_qr_code_total i) as (c & t2 & E2 & N2).
    apply notes_silent in N1. apply notes_silent in N2.
    destruct N1 as (_ & _ & _ & _ & _ & D1 & _), N2 as (_ & _ & _ & _ & _ & D2 & _).
    destruct (decode_stage p {| image_var := Some i; cropped_image_var := Some c |})
      as [[k s] t3] eqn:E3.
    pose proof (decode_stage_calls _ _ _ _ _ _ E3) as [_ D3].
    rewrite (extract_rendered _ _ _ _ _ _ _ _ _ _ _ Hd Hr E1 E2 E3).
    cbn [snd decoder_calls]. rewrite !decoder_calls_app, D1, D2. cbn.
    assert (decoder_calls
              (match k with
               | Raise e => [Stdout (Msg_error_processing p e)]
               | _ => []
               end ++ [Call_Image_close i; Call_Image_close c]) = []) as ->
      by (destruct k; reflexivity).
    rewrite app_nil_r. right. exists c.
    destruct D3 as [->|(arr & _ & ->)]; eauto.
  - destruct (extract_unrendered _ _ _ Hr) as (t & E & _ & _ & Hc & Hdc & _).
    rewrite E. cbn. split; [now left|]. auto.
Qed.

(** ** The orchestrator, entry by entry *)

(** The ways one entry can go. *)
Lemma process_entry_shape (folder f : string) (fs : filesystem) :
  exists k fs' t,
    process_entry folder f fs = (k, fs', t) /\
    processed t = (if is_pdf_name f then [f] else []) /\
    ((is_pdf_name f = false /\ k = Normal tt /\ fs' = fs /\ t = []) \/
     (is_pdf_name f = true /\ k = Raise (UnboundLocalError "image") /\
      fs' = fs /\ renames t = [] /\ outcomes t = []) \/
     (is_pdf_name f = true /\ k = Normal tt /\ fs' = fs /\ renames t = [] /\
      (outcomes t = [NotFound] \/ outcomes t = [SkippedAlreadyCorrect])) \/
     (is_pdf_name f = true /\ k = Normal tt /\
      exists dst,
        renames t = [(os_path_join folder f, dst)] /\
        ((os_rename fs (os_path_join folder f) dst = Ok fs' /\
          outcomes t = [Renamed]) \/
         (exists e,
            os_rename fs (os_path_join folder f) dst = Exc e /\ fs' = fs /\
            outcomes t =
              [if is_FileExistsError e then SkippedConflict else Failed])))).
Proof.
  destruct (is_pdf_name f) eqn:Hpdf.
  2:{ rewrite (process_entry_not_pdf _ _ _ Hpdf).
      do 3 eexists. split; [reflexivity|]. split; [reflexivity|]. left. auto. }
  pose proof (extract_trace fs (os_path_join folder f)) as Ht.
  pose proof (extract_raise_unbound fs (os_path_join folder f)) as Hraise.
  destruct (extract_qr_code_from_pdf fs (os_path_join folder f))
    as [[r|e] t] eqn:E; cbn in Ht, Hraise;
    destruct Ht as (Ho & Hn & Hp & Hl & Hopen).
  2:{ destruct (Hraise e eq_refl) as [-> _].
      rewrite (process_entry_raised _ _ _ _ _ Hpdf E).
      do 3 eexists. split; [reflexivity|]. cbn. rewrite Hp, Hn, Ho.
      split; [reflexivity|]. right. left. auto. }
  destruct (truthy_opt r) eqn:Hr.
  2:{ rewrite (process_entry_no_payload _ _ _ _ _ Hpdf E Hr).
      do 3 eexists. split; [reflexivity|]. cbn.
      rewrite processed_app, renames_app, outcomes_app, Hp, Hn, Ho. cbn.
      split; [reflexivity|]. right. right. left. auto 10. }
  destruct r as [content|]; [cbn in Hr|discriminate].
  destruct (string_dec (os_path_abspath (os_path_join folder f))
              (os_path_abspath (os_path_join folder (pdf_name content))))
    as [Hsame|Hdiff].
  - rewrite (process_entry_already_correct _ _ _ _ _ Hpdf E Hr Hsame).
    do 3 eexists. split; [reflexivity|]. cbn.
    rewrite processed_app, renames_app, outcomes_app, Hp, Hn, Ho. cbn.
    split; [reflexivity|]. right. right. left. auto 10.
  - rewrite (process_entry_rename _ _ _ _ _ Hpdf E Hr Hdiff). cbn.
    destruct (os_rename fs (os_path_join folder f)
                (os_path_join folder (pdf_name content))) as [fs'|e] eqn:Hren.
    + do 3 eexists. split; [reflexivity|]. cbn.
      rewrite processed_app, renames_app, outcomes_app, Hp, Hn, Ho. cbn.
      split; [reflexivity|]. right. right. right.
      split; [reflexivity|]. split; [reflexivity|].
      eexists. split; [reflexivity|]. left. auto.
    + do 3 eexists. split; [reflexivity|]. cbn.
      rewrite processed_app, renames_app, outcomes_app, Hp, Hn, Ho.
      destruct (is_FileExistsError e) eqn:Hfe; cbn;
        (split; [reflexivity|]); right; right; right;
        (split; [reflexivity|]); (split; [reflexivity|]);
        eexists; (split; [reflexivity|]); right; exists e;
        rewrite Hfe; auto.
Qed.

(** X8.  Whatever [os.rename] raises is kept inside the entry: the entry
    ends normally, the directory is unchanged, and the line printed is
    "already exists" for [FileExistsError] and "Error renaming" for any other
    exception.  [os.rename] was called once, with the entry's path and the
    folder joined with the payload followed by [.pdf]. *)
Theorem rename_error_is_contained (fs : filesystem)
    (folder f content : string) (t : trace) (e : exn) :
  is_pdf_name f = true ->
  extract_qr_code_from_pdf fs (os_path_join folder f) = (Ok (Some content), t) ->
  truthy_str content = true ->
  os_path_abspath (os_path_join folder f) <>
    os_path_abspath (os_path_join folder (pdf_name content)) ->
  os_rename fs (os_path_join folder f) (os_path_join folder (pdf_name content))
    = Exc e ->
  exists t',
    process_entry folder f fs = (Normal tt, fs, t') /\
    outcomes t' = [if is_FileExistsError e then SkippedConflict else Failed] /\
    renames t' =
      [(os_path_join folder f, os_path_join folder (pdf_name content))].
Proof.
  intros Hpdf E Hc Hdiff Hren.
  rewrite (process_entry_rename _ _ _ _ _ Hpdf E Hc Hdiff). cbn.
  rewrite Hren. eexists. split; [reflexivity|]. cbn.
  pose proof (extract_trace fs (os_path_join folder f)) as Ht.
  rewrite E in Ht. cbn in Ht. destruct Ht as (Ho & Hn & _).
  rewrite outcomes_app, renames_app, Ho, Hn. cbn.
  destruct (is_FileExistsError e); split; reflexivity.
Qed.

(** X9.  When the payload is not empty, the target differs from the source
    and [os.rename] succeeds, the entry ends as renamed, the directory is
    the one [os.rename] gave back, and the single call went from the entry's
    path to the folder joined with the payload followed by [.pdf]. *)
Theorem rename_to_payload (fs fs' : filesystem)
    (folder f content : string) (t : trace) :
  is_pdf_name f = true ->
  extract_qr_code_from_pdf fs (os_path_join folder f) = (Ok (Some content), t) ->
  truthy_str content = true ->
  os_path_abspath (os_path_join folder f) <>
    os_path_abspath (os_path_join folder (pdf_name content)) ->
  os_rename fs (os_path_join folder f) (os_path_join folder (pdf_name content))
    = Ok fs' ->
  exists t',
    process_entry folder f fs = (Normal tt, fs', t') /\
    outcomes t' = [Renamed] /\
    renames t' =
      [(os_path_join folder f, os_path_join folder (content ++ ".pdf")%string)].
Proof.
  intros Hpdf E Hc Hdiff Hren.
  rewrite (process_entry_rename _ _ _ _ _ Hpdf E Hc Hdiff). cbn.
  rewrite Hren. eexists. split; [reflexivity|]. cbn.
  pose proof (extract_trace fs (os_path_join folder f)) as Ht.
  rewrite E in Ht. cbn in Ht. destruct Ht as (Ho & Hn & _).
  rewrite outcomes_app, renames_app, Ho, Hn. split; reflexivity.
Qed.

(** X10.  Processing one entry calls [os.rename] at most once and on the
    entry's own path; it changes the directory only when the outcome is
    renamed; it either ends normally, with exactly one outcome printed for a
    PDF name and none for another name, or raises with no outcome printed
    and the directory unchanged. *)
Theorem entry_invariant (folder f : string) (fs fs' : filesystem)
    (k : ctl unit unit) (t : trace) :
  process_entry folder f fs = (k, fs', t) ->
  (renames t = [] \/ exists dst, renames t = [(os_path_join folder f, dst)]) /\
  (fs' = fs \/ outcomes t = [Renamed]) /\
  ((k = Normal tt /\
    length (outcomes t) = (if is_pdf_name f then 1 else 0)%nat) \/
   (exists e, k = Raise e /\ outcomes t = [] /\ renames t = [] /\ fs' = fs)).
Proof.
  intros E.
  destruct (process_entry_shape folder f fs) as (k0 & fs0 & t0 & E0 & _ & H).
  rewrite E in E0. injection E0 as <- <- <-.
  destruct H as [(Hpdf & -> & -> & ->)
               |[(Hpdf & -> & -> & Hn & Ho)
               |[(Hpdf & -> & -> & Hn & Ho)
               |(Hpdf & -> & dst & Hn & Ho)]]]; rewrite Hpdf.
  - cbn. auto.
  - rewrite Hn, Ho. split; [auto|]. split; [auto|]. right. eauto.
  - rewrite Hn. split; [auto|]. split; [auto|]. left.
    destruct Ho as [-> | ->]; auto.
  - rewrite Hn. split; [eauto|].
    destruct Ho as [[_ ->]|(e & _ & -> & ->)]; auto.
Qed.

(** ** The orchestrator, over the directory *)

Lemma for_each_app {S R A : Type} (l1 l2 : list A) (body : A -> M S R unit)
    (s : S) :
  for_each (l1 ++ l2) body s =
  match for_each l1 body s with
  | (Normal _, s1, t1) =>
      let '(k, s2, t2) := for_each l2 body s1 in (k, s2, t1 ++ t2)
  | (Return r, s1, t1) => (Return r, s1, t1)
  | (Raise e, s1, t1) => (Raise e, s1, t1)
  end.
Proof.
  revert s. induction l1 as [|x l1 IH]; intros s; cbn [app for_each].
  - unfold ret. destruct (for_each l2 body s) as [[k s2] t2]. reflexivity.
  - unfold bind. destruct (body x s) as [[[[]|r|e] s1] t1];
      try reflexivity.
    rewrite IH. destruct (for_each l1 body s1) as [[[[]|r|e] s2] t2];
      try reflexivity.
    destruct (for_each l2 body s2) as [[k s3] t3].
    now rewrite app_assoc.
Qed.

Lemma process_entry_counts (folder f : string) (fs : filesystem) :
  exists k fs' t,
    process_entry folder f fs = (k, fs', t) /\
    ((k = Normal tt /\
      length (outcomes t) = (if is_pdf_name f then 1 else 0)%nat /\
      length (processed t) = (if is_pdf_name f then 1 else 0)%nat /\
      (length (renames t) <= length (outcomes t))%nat /\
      (fs' = fs \/ outcomes t = [Renamed])) \/
     (k = Raise (UnboundLocalError "image") /\ fs' = fs /\
      outcomes t = [] /\ renames t = [] /\ length (processed t) = 1%nat)).
Proof.
  destruct (process_entry_shape folder f fs) as (k & fs' & t & E & Hp & H).
  exists k, fs', t. split; [exact E|]. rewrite Hp.
  destruct H as [(Hpdf & -> & -> & ->)
               |[(Hpdf & -> & -> & Hn & Ho)
               |[(Hpdf & -> & -> & Hn & Ho)
               |(Hpdf & -> & dst & Hn & Ho)]]]; rewrite Hpdf.
  - left. cbn. repeat split; auto.
  - right. repeat split; auto.
  - left. rewrite Hn. destruct Ho as [-> | ->]; cbn;
      repeat split; auto with arith.
  - left. rewrite Hn.
    destruct Ho as [[_ ->]|(e & _ & -> & ->)]; cbn; repeat split; auto.
Qed.

Lemma for_each_counts (folder : string) (names : list string)
    (fs : filesystem) :
  exists k fs' t,
    for_each names (process_entry folder) fs = (k, fs', t) /\
    (k = Normal tt \/ k = Raise (UnboundLocalError "image")) /\
    (k = Normal tt ->
     length (outcomes t) = length (filter is_pdf_name names)) /\
    (k <> Normal tt -> S (length (outcomes t)) = length (processed t)) /\
    (length (outcomes t) <= length (processed t))%nat /\
    (length (renames t) <= length (outcomes t))%nat /\
    (~ In Renamed (outcomes t) -> fs' = fs).
Proof.
  revert fs. induction names as [|f names IH]; intros fs.
  - do 3 eexists. split; [reflexivity|]. cbn.
    repeat split; auto. intros H. now contradiction H.
  - destruct (process_entry_counts folder f fs) as (k1 & fs1 & t1 & E1 & H1).
    cbn [for_each]. unfold bind at 1. rewrite E1.
    destruct H1 as [(-> & Ho1 & Hp1 & Hn1 & Hfs1)|(-> & -> & Ho1 & Hn1 & Hp1)].
    + destruct (IH fs1) as (k & fs' & t & E & Hk & Hok & Hab & Hop & Hno & Hfs).
      rewrite E. do 3 eexists. split; [reflexivity|].
      rewrite outcomes_app, processed_app, renames_app, !length_app.
      split; [exact Hk|]. split; [|split; [|split; [|split]]].
      * intros Hn. rewrite (Hok Hn), Ho1. cbn [filter].
        destruct (is_pdf_name f); reflexivity.
      * intros Hn. specialize (Hab Hn). lia.
      * lia.
      * lia.
      * intros Hnot. rewrite Hfs.
        -- destruct Hfs1 as [->|Hren]; [reflexivity|].
           exfalso. apply Hnot. apply in_or_app. left. rewrite Hren. now left.
        -- intros Hin. apply Hnot. apply in_or_app. now right.
    + do 3 eexists. split; [reflexivity|].
      rewrite Ho1, Hn1, Hp1. cbn.
      split; [now right|]. split; [discriminate|]. repeat split; auto.
Qed.

(** X11.  When the folder cannot be listed, the exception of [os.listdir]
    leaves the orchestrator before any entry is looked at.  When it can be
    listed, the only exception that ever leaves the orchestrator is the
    [UnboundLocalError] of the extraction's release step: no library
    exception and no rename error does. *)
Theorem orchestrator_exceptions (folder : string) (fs : filesystem) :
  (forall e, os_listdir fs folder = Exc e ->
     rename_pdfs_in_folder folder fs = (Exc e, fs, [Call_os_listdir folder])) /\
  (forall names e,
     os_listdir fs folder = Ok names ->
     fst (fst (rename_pdfs_in_folder folder fs)) = Exc e ->
     e = UnboundLocalError "image").
Proof.
  split.
  - intros e H. unfold rename_pdfs_in_folder. py_unfold. cbn.
    rewrite H. reflexivity.
  - intros names e Hls.
    rewrite (rename_pdfs_in_folder_loop _ _ _ Hls).
    destruct (for_each_counts folder names fs) as (k & fs' & t & E & Hk & _).
    rewrite E. cbn. destruct Hk as [-> | ->]; [discriminate|].
    now intros [= <-].
Qed.

(** X12.  Over a listed folder: a run that ends normally printed exactly
    one outcome per entry with a PDF name; a run that is cut short printed
    an outcome for every entry it started but the last; there are never
    more calls of [os.rename] than outcomes; and a run none of whose
    outcomes is renamed leaves the directory as it was. *)
Theorem run_accounting (folder : string) (fs fs' : filesystem)
    (names : list string) (r : res unit) (t : trace) :
  os_listdir fs folder = Ok names ->
  rename_pdfs_in_folder folder fs = (r, fs', t) ->
  (r = Ok tt -> length (outcomes t) = length (filter is_pdf_name names)) /\
  (r <> Ok tt -> S (length (outcomes t)) = length (processed t)) /\
  (length (renames t) <= length (outcomes t))%nat /\
  (~ In Renamed (outcomes t) -> fs' = fs).
Proof.
  intros Hls. rewrite (rename_pdfs_in_folder_loop _ _ _ Hls).
  destruct (for_each_counts folder names fs)
    as (k & fs0 & t0 & E & Hk & Hok & Hab & _ & Hno & Hfs).
  rewrite E. intros [= <- <- <-]. cbn.
  destruct Hk as [-> | ->].
  - repeat split; auto; intros H; now contradiction H.
  - split; [discriminate|]. split; [intros _; apply Hab; discriminate|].
    split; assumption.
Qed.

(** X13.  Later entries see the renames of earlier ones.  When the first
    entry of a listing is renamed, the rest of the listing is processed on
    the directory that [os.rename] gave back, not on the directory as it was
    listed; the trace of the run is that of the renamed entry followed by
    that of the rest. *)
Theorem later_entries_see_earlier_renames (folder f content : string)
    (rest : list string) (fs fs1 : filesystem) (t : trace) :
  is_pdf_name f = true ->
  extract_qr_code_from_pdf fs (os_path_join folder f) = (Ok (Some content), t) ->
  truthy_str content = true ->
  os_path_abspath (os_path_join folder f) <>
    os_path_abspath (os_path_join folder (pdf_name content)) ->
  os_rename fs (os_path_join folder f) (os_path_join folder (pdf_name content))
    = Ok fs1 ->
  for_each (f :: rest) (process_entry folder) fs =
    let '(k, fs2, t2) := for_each rest (process_entry folder) fs1 in
    (k, fs2,
     (Stdout (Msg_processing f) :: t ++
        [Call_os_rename (os_path_join folder f)
           (os_path_join folder (pdf_name content));
         Stdout (Msg_renamed (pdf_name content))]) ++ t2).
Proof.
  intros Hpdf E Hc Hdiff Hren. cbn [for_each]. unfold bind.
  rewrite (process_entry_rename _ _ _ _ _ Hpdf E Hc Hdiff). cbn zeta.
  rewrite Hren. reflexivity.
Qed.

Lemma orchestrator_exceptions_aux (folder : string) (fs : filesystem) :
  forall e, fst (fst (rename_pdfs_in_folder folder fs)) = Exc e ->
    (exists e0, os_listdir fs folder = Exc e0 /\ Exc (A := unit) e = Exc e0) \/
    Exc (A := unit) e = Exc (UnboundLocalError "image").
Proof.
  intros e. destruct (os_listdir fs folder) as [names|e0] eqn:Hls.
  - rewrite (rename_pdfs_in_folder_loop _ _ _ Hls).
    destruct (for_each_counts folder names fs) as (k & fs' & t & E & Hk & _).
    rewrite E. cbn. destruct Hk as [-> | ->]; [discriminate|].
    intros [= <-]. now right.
  - unfold rename_pdfs_in_folder. py_unfold. cbn. rewrite Hls. cbn.
    intros [= <-]. left. eauto.
Qed.

(** X14.  [main] prints the folder, then hands over to the orchestrator and
    adds nothing to its result.  The exit status is other than 0 only when
    the folder cannot be listed or when the release step of an extraction
    raised [UnboundLocalError]. *)
Theorem main_exit_status (folder : string) (fs : filesystem) :
  exists r fs' t,
    rename_pdfs_in_folder folder fs = (r, fs', t) /\
    main folder fs = (r, fs', Stdout (Msg_current_folder folder) :: t) /\
    (exit_status r = 0 \/
     (exists e, os_listdir fs folder = Exc e /\ r = Exc e) \/
     r = Exc (UnboundLocalError "image")).
Proof.
  pose proof (orchestrator_exceptions_aux folder fs) as Hx.
  destruct (rename_pdfs_in_folder folder fs) as [[r fs'] t] eqn:E.
  exists r, fs', t. split; [reflexivity|]. split.
  - unfold main. py_unfold. cbn. rewrite E. cbn.
    destruct r as [[]|e]; reflexivity.
  - destruct r as [[]|e]; [now left|right]. cbn in Hx. exact (Hx e eq_refl).
Qed.

(** ** Names *)


End More.

(** ** Instances of the further properties *)

Lemma opencv_decode_result_witness :
  exists t,
    extract_qr_code_with_opencv (C := Sim.posix)
      (Sim.full_raster Sim.blank_page) = (Ok (Some ""%string), t).
Proof.
  destruct (opencv_decode_result (C := Sim.posix)
              (Sim.full_raster Sim.blank_page)) as (r & t & E & _ & _ & H).
  exists t.
  rewrite (proj2 (H ""%string) (ex_intro _ _ (conj eq_refl eq_refl))) in E.
  exact E.
Defined.

Lemma detect_and_crop_result_witness :
  (length (snd (detect_and_crop_qr_code (C := Sim.posix)
                  (Sim.binarized Sim.framed_page))) <= 2)%nat.
Proof.
  exact (proj1 (detect_and_crop_result (C := Sim.posix)
                  (Sim.binarized Sim.framed_page) _ _ eq_refl)).
Defined.

Lemma bounding_box_encloses_witness :
  exists x_min y_min x_max y_max : Z,
    bounding_box [(3 # 2, 7 # 1); (-5 # 2, 9 # 4); (8 # 3, -1 # 2)]
      = Ok (x_min, y_min, x_max, y_max) /\
    x_min <= x_max /\ y_min <= y_max /\
    x_min <= py_int (8 # 3) <= x_max.
Proof.
  destruct (proj2 bounding_box_encloses (3 # 2, 7 # 1)
              [(-5 # 2, 9 # 4); (8 # 3, -1 # 2)])
    as (x0 & y0 & x1 & y1 & E & Hx & Hy & Hin).
  exists x0, y0, x1, y1. split; [exact E|]. split; [exact Hx|].
  split; [exact Hy|].
  exact (proj1 (Hin (8 # 3, -1 # 2) (or_intror (or_intror (or_introl eq_refl))))).
Defined.

Lemma extraction_raises_iff_unrendered_witness :
  exists e,
    fst (extract_qr_code_from_pdf (C := Sim.posix) Sim.empty_doc_dir
           "/d/empty.pdf") = Exc e.
Proof.
  exact (proj2 (proj1 (extraction_raises_iff_unrendered (C := Sim.posix)
                         Sim.empty_doc_dir "/d/empty.pdf"))
           (ex_intro _ IndexError eq_refl)).
Defined.

Lemma rendered_page_is_released_witness :
  closed_documents
    (snd (extract_qr_code_from_pdf (C := Sim.posix) Sim.crash_dir "/d/scan.pdf"))
    = [Sim.Pdf Sim.zbar_crash_page] /\
  closed_images
    (snd (extract_qr_code_from_pdf (C := Sim.posix) Sim.crash_dir "/d/scan.pdf"))
    = [Sim.binarized Sim.zbar_crash_page; Sim.full_raster Sim.zbar_crash_page].
Proof.
  pose proof (rendered_page_is_released (C := Sim.posix) Sim.crash_dir
                "/d/scan.pdf" _ _ _ _ _ _ eq_refl eq_refl eq_refl eq_refl) as H.
  cbv zeta in H. destruct H as (_ & Hd & Hi & _).
  split; [exact Hd|exact Hi].
Defined.

Lemma extraction_footprint_witness :
  decoder_calls
    (snd (extract_qr_code_from_pdf (C := Sim.posix) Sim.batch_dir "/d/bad.pdf"))
    = [] /\
  closed_images
    (snd (extract_qr_code_from_pdf (C := Sim.posix) Sim.batch_dir "/d/bad.pdf"))
    = [].
Proof.
  exact (proj2 (proj2 (proj2 (proj2
           (extraction_footprint (C := Sim.posix) Sim.batch_dir "/d/bad.pdf"))))
           (ex_intro _ (LibraryError "FileDataError") eq_refl)).
Defined.

Lemma rename_error_is_contained_witness :
  exists t,
    process_entry (C := Sim.posix) "/d" "A.pdf" Sim.taken_by_directory_dir
      = (Normal tt, Sim.taken_by_directory_dir, t) /\
    outcomes t = [Failed] /\
    renames t = [("/d/A.pdf", "/d/X.pdf")].
Proof.
  eapply (rename_error_is_contained (C := Sim.posix)
            Sim.taken_by_directory_dir "/d" "A.pdf" "X" _ IsADirectoryError).
  - reflexivity.
  - reflexivity.
  - reflexivity.
  - cbn. discriminate.
  - reflexivity.
Defined.

Lemma rename_to_payload_witness :
  exists t,
    process_entry (C := Sim.posix) "/d" "scan.pdf" Sim.framed_dir
      = (Normal tt,
         [("/d/INV-2024-001.pdf", Sim.File (Sim.Pdf Sim.framed_page))], t) /\
    outcomes t = [Renamed] /\
    renames t = [("/d/scan.pdf", "/d/INV-2024-001.pdf")].
Proof.
  eapply (rename_to_payload (C := Sim.posix) Sim.framed_dir _
            "/d" "scan.pdf" "INV-2024-001" _).
  - reflexivity.
  - reflexivity.
  - reflexivity.
  - cbn. discriminate.
  - reflexivity.
Defined.

Lemma entry_invariant_witness :
  snd (fst (process_entry (C := Sim.posix) "/d" "A.pdf" Sim.collision_dir))
    = Sim.collision_dir \/
  outcomes (snd (process_entry (C := Sim.posix) "/d" "A.pdf" Sim.collision_dir))
    = [Renamed].
Proof.
  exact (proj1 (proj2 (entry_invariant (C := Sim.posix) "/d" "A.pdf"
                         Sim.collision_dir _ _ _ eq_refl))).
Defined.

Lemma orchestrator_exceptions_witness :
  fst (fst (rename_pdfs_in_folder (C := Sim.posix) "/d" Sim.batch_dir))
    = Exc (UnboundLocalError "image") /\
  UnboundLocalError "image" = UnboundLocalError "image".
Proof.
  split; [reflexivity|].
  exact (proj2 (orchestrator_exceptions (C := Sim.posix) "/d" Sim.batch_dir)
           _ _ eq_refl eq_refl).
Defined.

Lemma run_accounting_witness :
  length (outcomes (snd (rename_pdfs_in_folder (C := Sim.windows) "C:\docs"
                           Sim.collision_dir_windows)))
    = length (filter is_pdf_name ["A.pdf"; "X.pdf"]).
Proof.
  exact (proj1 (run_accounting (C := Sim.windows) "C:\docs"
                  Sim.collision_dir_windows _ _ _ _ eq_refl eq_refl) eq_refl).
Defined.

Lemma later_entries_see_earlier_renames_witness :
  (exists t,
     for_each ["X.pdf"; "A.pdf"]
       (process_entry (C := Sim.windows) "C:\docs") Sim.chain_dir_windows
       = (Normal tt,
          [("C:\docs\Y.pdf", Sim.File (Sim.Pdf (Sim.page_with "Y")));
           ("C:\docs\X.pdf", Sim.File (Sim.Pdf (Sim.page_with "X")))], t) /\
     outcomes t = [Renamed; Renamed]) /\
  outcomes (snd (process_entry (C := Sim.windows) "C:\docs" "A.pdf"
                   Sim.chain_dir_windows)) = [SkippedConflict].
Proof.
  split; [|reflexivity].
  eexists. split.
  - etransitivity.
    + eapply (later_entries_see_earlier_renames (C := Sim.windows)
                "C:\docs" "X.pdf" "Y" ["A.pdf"] Sim.chain_dir_windows).
      * reflexivity.
      * reflexivity.
      * reflexivity.
      * cbn. discriminate.
      * reflexivity.
    + vm_compute. reflexivity.
  - reflexivity.
Defined.
